(** * The e-learning backend: registration, login, seeding and course listing

    A shallow embedding of [src/main.py] and [src/backend/schemas.py].

    A Python [str] is a sequence of code points, surrogates included.  It is
    modelled as a [string] holding the generalized UTF-8 bytes of the text:
    every code point is written in the UTF-8 pattern of its size, so a
    surrogate (U+D800..U+DFFF) is the three bytes ED A0..BF 80..BF, which no
    other code point produces.  [str.encode()] returns the bytes of a text
    without surrogates and raises [UnicodeEncodeError] on the others.  The
    request and response models of the framework are records; the documents
    of the store are Python dicts, modelled as finite maps from field names
    to dynamically typed values.  The handlers run in a small state and
    exception monad over the module-level handle [db]. *)

From Stdlib Require Import ZArith NArith Ascii String List Lia.
From stdpp Require Import base option list gmap strings fin_maps pretty.

Local Open Scope Z_scope.

(** ** Hexadecimal rendering, shared by [hexdigest] and [str(ObjectId)] *)

Definition hex_digit (d : Z) : ascii :=
  if d <? 10 then ascii_of_N (Z.to_N (48 + d))
  else ascii_of_N (Z.to_N (87 + d)).

(** [hex_fixed n x]: the [n] low hexadecimal digits of [x], most significant
    first, in lower case. *)
Fixpoint hex_fixed (n : nat) (x : Z) : string :=
  match n with
  | O => EmptyString
  | S k => hex_fixed k (x / 16) +:+ String (hex_digit (x mod 16)) EmptyString
  end.

Definition is_hex_char (c : ascii) : bool :=
  let n := Z.of_N (N_of_ascii c) in
  ((48 <=? n) && (n <=? 57)) || ((97 <=? n) && (n <=? 102)).

Fixpoint string_forallb (p : ascii -> bool) (s : string) : bool :=
  match s with
  | EmptyString => true
  | String c r => p c && string_forallb p r
  end.

(** ** SHA-256 (FIPS 180-4), the function behind [hashlib.sha256] *)

Module SHA256.

Definition wrap (x : Z) : Z := x mod 4294967296.

Definition rotr (n x : Z) : Z :=
  Z.lor (Z.shiftr x n) (wrap (Z.shiftl x (32 - n))).

Definition ch (x y z : Z) : Z :=
  Z.lxor (Z.land x y) (Z.land (Z.lxor x 4294967295) z).

Definition maj (x y z : Z) : Z :=
  Z.lxor (Z.lxor (Z.land x y) (Z.land x z)) (Z.land y z).

Definition big0 (x : Z) : Z := Z.lxor (Z.lxor (rotr 2 x) (rotr 13 x)) (rotr 22 x).
Definition big1 (x : Z) : Z := Z.lxor (Z.lxor (rotr 6 x) (rotr 11 x)) (rotr 25 x).
Definition small0 (x : Z) : Z := Z.lxor (Z.lxor (rotr 7 x) (rotr 18 x)) (Z.shiftr x 3).
Definition small1 (x : Z) : Z := Z.lxor (Z.lxor (rotr 17 x) (rotr 19 x)) (Z.shiftr x 10).

(** Round constants: the first 32 bits of the fractional parts of the cube
    roots of the first 64 primes. *)
Definition round_constants : list Z :=
  [ 1116352408; 1899447441; 3049323471; 3921009573; 961987163; 1508970993;
    2453635748; 2870763221; 3624381080; 310598401; 607225278; 1426881987;
    1925078388; 2162078206; 2614888103; 3248222580; 3835390401; 4022224774;
    264347078; 604807628; 770255983; 1249150122; 1555081692; 1996064986;
    2554220882; 2821834349; 2952996808; 3210313671; 3336571891; 3584528711;
    113926993; 338241895; 666307205; 773529912; 1294757372; 1396182291;
    1695183700; 1986661051; 2177026350; 2456956037; 2730485921; 2820302411;
    3259730800; 3345764771; 3516065817; 3600352804; 4094571909; 275423344;
    430227734; 506948616; 659060556; 883997877; 958139571; 1322822218;
    1537002063; 1747873779; 1955562222; 2024104815; 2227730452; 2361852424;
    2428436474; 2756734187; 3204031479; 3329325298 ].

(** The eight working registers. *)
Record regs : Type := Regs {
  ra : Z; rb : Z; rc : Z; rd : Z; re : Z; rf : Z; rg : Z; rh : Z
}.

Definition initial_hash : regs :=
  Regs 1779033703 3144134277 1013904242 2773480762
       1359893119 2600822924 528734635 1541459225.

(** Big-endian bytes of [x], [n] of them. *)
Fixpoint be_bytes (n : nat) (x : Z) : list Z :=
  match n with
  | O => []
  | S k => be_bytes k (x / 256) ++ [x mod 256]
  end.

(** Padding: a 1 bit, zero bits up to 448 mod 512, the bit length on
    64 bits. *)
Definition pad (msg : list Z) : list Z :=
  let l := Z.of_nat (length msg) in
  msg ++ [128] ++ repeat 0 (Z.to_nat ((55 - l) mod 64)) ++ be_bytes 8 (8 * l).

Fixpoint words_of_bytes (bs : list Z) : list Z :=
  match bs with
  | b3 :: b2 :: b1 :: b0 :: rest =>
      (b3 * 16777216 + b2 * 65536 + b1 * 256 + b0) :: words_of_bytes rest
  | _ => []
  end.

(** The message schedule: [n] further words after the words of [w]. *)
Fixpoint schedule (n : nat) (w : list Z) : list Z :=
  match n with
  | O => w
  | S k =>
      let t := length w in
      let at_back i := nth (t - i) w 0 in
      schedule k
        (w ++ [wrap (small1 (at_back 2%nat) + at_back 7%nat
                     + small0 (at_back 15%nat) + at_back 16%nat)])
  end.

Definition round (s : regs) (kw : Z * Z) : regs :=
  let t1 := wrap (rh s + big1 (re s) + ch (re s) (rf s) (rg s) + fst kw + snd kw) in
  let t2 := wrap (big0 (ra s) + maj (ra s) (rb s) (rc s)) in
  Regs (wrap (t1 + t2)) (ra s) (rb s) (rc s) (wrap (rd s + t1)) (re s) (rf s) (rg s).

Definition compress (h : regs) (block : list Z) : regs :=
  let s := fold_left round (combine round_constants (schedule 48 block)) h in
  Regs (wrap (ra h + ra s)) (wrap (rb h + rb s)) (wrap (rc h + rc s))
       (wrap (rd h + rd s)) (wrap (re h + re s)) (wrap (rf h + rf s))
       (wrap (rg h + rg s)) (wrap (rh h + rh s)).

Fixpoint blocks (n : nat) (ws : list Z) (h : regs) : regs :=
  match n with
  | O => h
  | S k => blocks k (skipn 16 ws) (compress h (firstn 16 ws))
  end.

Definition digest (msg : list Z) : regs :=
  let ws := words_of_bytes (pad msg) in
  blocks (length ws / 16) ws initial_hash.

Definition hexdigest (msg : list Z) : string :=
  let h := digest msg in
  hex_fixed 8 (ra h) +:+ hex_fixed 8 (rb h) +:+ hex_fixed 8 (rc h) +:+
  hex_fixed 8 (rd h) +:+ hex_fixed 8 (re h) +:+ hex_fixed 8 (rf h) +:+
  hex_fixed 8 (rg h) +:+ hex_fixed 8 (rh h).

End SHA256.

(** ** Exceptions and outcomes *)

Inductive exn : Type :=
| HTTPException (status_code : Z) (detail : string)
| PyException (class : string) (message : string).

#[global] Instance exn_eq_dec : EqDecision exn.
Proof. solve_decision. Defined.

(** [str(e)]: starlette prints an [HTTPException] as "status: detail". *)
Definition exn_str (e : exn) : string :=
  match e with
  | HTTPException sc detail => pretty sc +:+ ": " +:+ detail
  | PyException _ message => message
  end.

(** What a call does: it returns a value or raises. *)
Inductive outcome (A : Type) : Type :=
| Returned (a : A)
| Raised (e : exn).
Arguments Returned {A} a.
Arguments Raised {A} e.

(** ** Texts, [str.encode()] and [hash_password] *)

(** The text holds a surrogate code point: a byte ED followed by a byte in
    A0..BF. *)
Definition starts_low (s : string) : bool :=
  match s with
  | EmptyString => false
  | String c _ => ((160 <=? N_of_ascii c) && (N_of_ascii c <=? 191))%N
  end.

Fixpoint has_surrogate (s : string) : bool :=
  match s with
  | EmptyString => false
  | String c r => ((N_of_ascii c =? 237)%N && starts_low r) || has_surrogate r
  end.

(** The bytes of a text. *)
Fixpoint utf8_bytes (s : string) : list Z :=
  match s with
  | EmptyString => []
  | String c r => Z.of_N (N_of_ascii c) :: utf8_bytes r
  end.

Definition UnicodeEncodeError : exn :=
  PyException "UnicodeEncodeError" "surrogates not allowed".

(** [str.encode()]: the UTF-8 bytes of the text; a surrogate cannot be
    encoded. *)
Definition encode (s : string) : outcome (list Z) :=
  if has_surrogate s then Raised UnicodeEncodeError else Returned (utf8_bytes s).

(** main.py, [hash_password]: [hashlib.sha256(password.encode()).hexdigest()]. *)
Definition hash_password (password : string) : outcome string :=
  match encode password with
  | Returned bytes => Returned (SHA256.hexdigest bytes)
  | Raised e => Raised e
  end.

(** The fingerprint that [hash_password] returns for a text it can encode. *)
Definition fingerprint (text : string) : string := SHA256.hexdigest (utf8_bytes text).

Arguments hash_password : simpl never.
Arguments fingerprint : simpl never.

(** [EmailStr]: a text that has passed the framework's address validation.
    Of that validation the handlers rely on one fact only, which the type
    records: an address can be encoded. *)
Record EmailStr : Type := {
  address :> string;
  address_encodable : has_surrogate address = false
}.

(** ** Values and documents *)

(** The dynamically typed values that occur in the documents of this
    program: [None], booleans, strings and the store's [ObjectId]s. *)
Inductive value : Type :=
| VNone
| VBool (b : bool)
| VStr (s : string)
| VOid (n : N).

#[global] Instance value_eq_dec : EqDecision value.
Proof. solve_decision. Defined.

(** A document is a Python dict with string keys. *)
Abbreviation document := (gmap string value).

(** A dict literal. *)
Definition dict (fields : list (string * value)) : document := list_to_map fields.

(** [str(v)]; an [ObjectId] prints as its 24 hexadecimal digits. *)
Definition py_str (v : value) : string :=
  match v with
  | VNone => "None"
  | VBool true => "True"
  | VBool false => "False"
  | VStr s => s
  | VOid n => hex_fixed 24 (Z.of_N n)
  end.

(** [d.get(k)] and [d.get(k, default)]. *)
Definition dict_get (d : document) (k : string) : value := default VNone (d !! k).
Definition dict_get_or (d : document) (k : string) (dflt : value) : value :=
  default dflt (d !! k).

(** ** The store behind the module-level handle [db] *)

(** The database reached through [db]: its named collections in natural
    (insertion) order, the generator of fresh [ObjectId]s, and whether the
    server is currently unreachable, in which case every driver call raises
    with the given message. *)
Record Database : Type := {
  collections : gmap string (list document);
  next_oid : N;
  outage : option string
}.

(** [db] is [None] when no database is configured. *)
Abbreviation world := (option Database).

Definition empty_db : Database :=
  {| collections := ∅; next_oid := 0%N; outage := None |}.

Definition docs_of (db : Database) (coll : string) : list document :=
  default [] (collections db !! coll).

(** ** The monad of the handlers: state [db], exceptions *)

Definition M (A : Type) : Type := world -> outcome A * world.

Definition ret {A} (a : A) : M A := fun w => (Returned a, w).
Definition raise {A} (e : exn) : M A := fun w => (Raised e, w).
Definition bind {A B} (m : M A) (k : A -> M B) : M B :=
  fun w => match m w with
           | (Returned a, w') => k a w'
           | (Raised e, w') => (Raised e, w')
           end.
(** A call of a function that reads and writes no state. *)
Definition call {A} (o : outcome A) : M A := fun w => (o, w).
(** [try: m  except Exception as e: h e]. *)
Definition try_except {A} (m : M A) (h : exn -> M A) : M A :=
  fun w => match m w with
           | (Returned a, w') => (Returned a, w')
           | (Raised e, w') => h e w'
           end.

Notation "x <- c1 ;; c2" := (bind c1 (fun x => c2))
  (at level 100, c1 at next level, right associativity).
Notation "c1 ;; c2" := (bind c1 (fun _ => c2))
  (at level 100, right associativity).

Fixpoint for_each {A} (l : list A) (body : A -> M unit) : M unit :=
  match l with
  | [] => ret tt
  | x :: rest => body x ;; for_each rest body
  end.

(** [db is None]. *)
Definition db_is_None : M bool := fun w => (Returned (bool_decide (w = None)), w).

(** [d[k]]. *)
Definition subscript (d : document) (k : string) : M value :=
  match d !! k with
  | Some v => ret v
  | None => raise (PyException "KeyError" k)
  end.

(** *** The driver's collection methods, reached as [db[coll].method(...)] *)

(** A call on [db[coll]]: a [TypeError] when [db] is [None], the driver's
    error during an outage. *)
Definition driver_call {A} (f : Database -> A * Database) : M A :=
  fun w => match w with
           | None => (Raised (PyException "TypeError" "'NoneType' object is not subscriptable"), w)
           | Some db =>
               match outage db with
               | Some msg => (Raised (PyException "ServerSelectionTimeoutError" msg), w)
               | None => let (a, db') := f db in (Returned a, Some db')
               end
           end.

(** An equality query [{k1: v1, ...}]; a [None] value also matches a missing
    field. *)
Definition field_matches (d : document) (kv : string * value) : bool :=
  match snd kv with
  | VNone => bool_decide (d !! fst kv = None) || bool_decide (d !! fst kv = Some VNone)
  | v => bool_decide (d !! fst kv = Some v)
  end.

Definition matches (query : list (string * value)) (d : document) : bool :=
  forallb (field_matches d) query.

Definition find_one (coll : string) (query : list (string * value)) : M (option document) :=
  driver_call (fun db => (List.find (matches query) (docs_of db coll), db)).

Definition find (coll : string) (query : list (string * value)) : M (list document) :=
  driver_call (fun db => (List.filter (matches query) (docs_of db coll), db)).

Definition count_documents (coll : string) (query : list (string * value)) : M nat :=
  driver_call (fun db => (length (List.filter (matches query) (docs_of db coll)), db)).

(** The driver gives a document without [_id] a fresh [ObjectId]. *)
Definition with_id (d : document) (oid : N) : document :=
  match d !! "_id" with
  | Some _ => d
  | None => <["_id" := VOid oid]> d
  end.

(** The driver's insertion: the document goes to the end of its collection,
    with an [ObjectId] when it has none.  Which identifier the driver picks
    is its own business; the counter stands for that choice, and the
    properties below rely on the presence of [_id] only, not on its value. *)
Definition store (coll : string) (d : document) (db : Database) : Database :=
  {| collections := <[coll := docs_of db coll ++ [with_id d (next_oid db)]]> (collections db);
     next_oid := N.succ (next_oid db);
     outage := outage db |}.

Definition insert_one (coll : string) (d : document) : M unit :=
  driver_call (fun db => (tt, store coll d db)).

Definition insert_many (coll : string) (ds : list document) : M unit :=
  driver_call (fun db => (tt, fold_left (fun acc d => store coll d acc) ds db)).

(** ** schemas.py *)

Inductive Role : Type := student | faculty | admin.

Definition role_str (r : Role) : string :=
  match r with
  | student => "student"
  | faculty => "faculty"
  | admin => "admin"
  end.

Module User.
Record t : Type := {
  name : string;
  email : EmailStr;
  password_hash : string;
  role : Role;
  is_active : bool
}.
End User.

(** The document of a [User] model, field by field. *)
Definition model_dump (u : User.t) : document :=
  dict [ ("name", VStr (User.name u));
         ("email", VStr (User.email u));
         ("password_hash", VStr (User.password_hash u));
         ("role", VStr (role_str (User.role u)));
         ("is_active", VBool (User.is_active u)) ].

(** ** The document store gateway *)

(** Modelled from the spec: [create_document] of database.py, which is not
    under src/.  It inserts the document of the given model into the named
    collection. *)
Definition create_document (coll : string) (data : User.t) : M unit :=
  insert_one coll (model_dump data).

(** Modelled from the spec: [get_documents] of database.py, which is not
    under src/.  It returns all the documents of the named collection, in
    the store's order, and raises when the store cannot be accessed. *)
Definition get_documents (coll : string) : M (list document) :=
  find coll [].

(** ** main.py *)

(** Truth value of what [find_one] returns: [None] and the empty dict are
    false. *)
Definition truthy (found : option document) : bool :=
  match found with
  | None => false
  | Some d => negb (bool_decide (d = ∅))
  end.

(** A dict of the list [defaults], given the fingerprint of its password. *)
Definition account (name email password_hash role : string) : document :=
  dict [ ("name", VStr name);
         ("email", VStr email);
         ("password_hash", VStr password_hash);
         ("role", VStr role);
         ("is_active", VBool true) ].

Definition ensure_default_users : M unit :=
  absent <- db_is_None ;;
  if absent then ret tt else
  admin_hash <- call (hash_password "admin123") ;;
  faculty_hash <- call (hash_password "faculty123") ;;
  let defaults :=
    [ account "Admin" "admin@elearning.com" admin_hash "admin";
      account "Faculty" "faculty@elearning.com" faculty_hash "faculty" ] in
  for_each defaults (fun u =>
    email <- subscript u "email" ;;
    found <- find_one "user" [("email", email)] ;;
    if negb (truthy found) then insert_one "user" u else ret tt).

(** The two dicts of [defaults] as [ensure_default_users] builds them: both
    fixed passwords can be encoded ([default_passwords_hash] below). *)
Definition admin_account : document :=
  account "Admin" "admin@elearning.com" (fingerprint "admin123") "admin".

Definition faculty_account : document :=
  account "Faculty" "faculty@elearning.com" (fingerprint "faculty123") "faculty".

Definition default_users : list document := [admin_account; faculty_account].

Definition sample_courses : list document :=
  [ dict [ ("title", VStr "Web Development"); ("category", VStr "Courses");
           ("level", VStr "Beginner") ];
    dict [ ("title", VStr "Cyber Security"); ("category", VStr "Courses");
           ("level", VStr "Intermediate") ];
    dict [ ("title", VStr "Python"); ("category", VStr "Programming Languages");
           ("level", VStr "Beginner") ];
    dict [ ("title", VStr "C++"); ("category", VStr "Programming Languages");
           ("level", VStr "Intermediate") ] ].

Definition seed_samples : M unit :=
  absent <- db_is_None ;;
  if absent then ret tt else
  n <- count_documents "course" [] ;;
  if (n =? 0)%nat then insert_many "course" sample_courses else ret tt.

Definition startup_event : M unit :=
  try_except (ensure_default_users ;; seed_samples) (fun _ => ret tt).

Module RegisterRequest.
Record t : Type := { name : string; email : EmailStr; password : string }.
End RegisterRequest.

Module LoginRequest.
Record t : Type := { email : EmailStr; password : string }.
End LoginRequest.

Module AuthResponse.
Record t : Type := { name : string; email : string; role : string; token : string }.

(** Building the model from dynamically typed values: every field must be
    a string.  (The address was checked when the request that carries it
    was parsed; the syntax check is the framework's.) *)
Definition validate (name email role : value) (token : string) : M t :=
  match name, email, role with
  | VStr n, VStr e, VStr r => ret {| name := n; email := e; role := r; token := token |}
  | _, _, _ => raise (PyException "ValidationError" "validation error for AuthResponse")
  end.
End AuthResponse.

Definition register (req : RegisterRequest.t) : M AuthResponse.t :=
  absent <- db_is_None ;;
  if absent then raise (HTTPException 500 "Database not available") else
  found <- find_one "user" [("email", VStr (RegisterRequest.email req))] ;;
  if truthy found then raise (HTTPException 400 "Email already registered") else
  password_hash <- call (hash_password (RegisterRequest.password req)) ;;
  let user := {| User.name := RegisterRequest.name req;
                 User.email := RegisterRequest.email req;
                 User.password_hash := password_hash;
                 User.role := student;
                 User.is_active := true |} in
  create_document "user" user ;;
  token <- call (hash_password (RegisterRequest.email req +:+ "|"
                                +:+ RegisterRequest.password req)) ;;
  ret {| AuthResponse.name := User.name user;
         AuthResponse.email := User.email user;
         AuthResponse.role := role_str (User.role user);
         AuthResponse.token := token |}.

Definition login (req : LoginRequest.t) : M AuthResponse.t :=
  absent <- db_is_None ;;
  if absent then raise (HTTPException 500 "Database not available") else
  found <- find_one "user" [("email", VStr (LoginRequest.email req))] ;;
  if negb (truthy found) then raise (HTTPException 401 "Invalid credentials") else
  let found := default ∅ found in
  given_hash <- call (hash_password (LoginRequest.password req)) ;;
  if negb (bool_decide (dict_get found "password_hash" = VStr given_hash))
  then raise (HTTPException 401 "Invalid credentials") else
  token <- call (hash_password (LoginRequest.email req +:+ "|"
                                +:+ LoginRequest.password req)) ;;
  AuthResponse.validate (dict_get found "name") (dict_get found "email")
                        (dict_get_or found "role" (VStr "student")) token.

(** The loop body of [list_courses]: [it["id"] = str(it.pop("_id"))] when
    the key is there. *)
Definition expose_id (it : document) : document :=
  match it !! "_id" with
  | Some oid => <["id" := VStr (py_str oid)]> (delete "_id" it)
  | None => it
  end.

(** The dict that [list_courses] returns: ["items"], and ["error"] when the
    key is present. *)
Module CoursesResponse.
Record t : Type := { items : list document; error : option string }.
End CoursesResponse.

Definition list_courses : M CoursesResponse.t :=
  try_except
    (items <- get_documents "course" ;;
     ret {| CoursesResponse.items := map expose_id items;
            CoursesResponse.error := None |})
    (fun e => ret {| CoursesResponse.items := [];
                     CoursesResponse.error := Some (exn_str e) |}).


(** ** Vocabulary of the specification

    The document that [find_one] returns for an address, and the three
    failures of the authentication handlers. *)

Definition stored_user (db : Database) (email : string) : option document :=
  List.find (matches [("email", VStr email)]) (docs_of db "user").

Definition Unavailable : exn := HTTPException 500 "Database not available".
Definition Conflict : exn := HTTPException 400 "Email already registered".
Definition Unauthorized : exn := HTTPException 401 "Invalid credentials".

Definition credentials (req : RegisterRequest.t) : LoginRequest.t :=
  {| LoginRequest.email := RegisterRequest.email req;
     LoginRequest.password := RegisterRequest.password req |}.

(** The [User] that [register] builds for a request. *)
Definition new_user (req : RegisterRequest.t) : User.t :=
  {| User.name := RegisterRequest.name req;
     User.email := RegisterRequest.email req;
     User.password_hash := fingerprint (RegisterRequest.password req);
     User.role := student;
     User.is_active := true |}.

(** A call of one of the two authentication handlers. *)
Inductive auth_call : Type :=
| RegisterCall (req : RegisterRequest.t)
| LoginCall (req : LoginRequest.t).

Definition run_call (c : auth_call) : M AuthResponse.t :=
  match c with
  | RegisterCall req => register req
  | LoginCall req => login req
  end.

Definition call_email (c : auth_call) : string :=
  match c with
  | RegisterCall req => RegisterRequest.email req
  | LoginCall req => LoginRequest.email req
  end.

Definition call_password (c : auth_call) : string :=
  match c with
  | RegisterCall req => RegisterRequest.password req
  | LoginCall req => LoginRequest.password req
  end.

(** What [login] reads from a found document when it builds its response:
    the value under "name" and the value under "role", or the default role
    when the key is missing, must be strings. *)
Definition is_str (v : value) : bool :=
  match v with VStr _ => true | _ => false end.

Definition response_ready (d : document) : bool :=
  is_str (dict_get d "name") && is_str (dict_get_or d "role" (VStr "student")).

(** The store that the seeding leaves, as functions of the store it finds:
    a baseline account is stored when [find_one] finds no user with its
    address, the sample courses when the course collection is empty. *)
Definition ensure_user (u : document) (email : string) (db : Database) : Database :=
  match stored_user db email with
  | Some _ => db
  | None => store "user" u db
  end.

Definition ensure_courses (db : Database) : Database :=
  match docs_of db "course" with
  | [] => fold_left (fun acc d => store "course" d acc) sample_courses db
  | _ :: _ => db
  end.

Definition seeded_db (db : Database) : Database :=
  ensure_courses
    (ensure_user faculty_account "faculty@elearning.com"
       (ensure_user admin_account "admin@elearning.com" db)).

(** A stored document carries the driver's identifier. *)
Definition has_id (d : document) : bool := bool_decide (is_Some (d !! "_id")).

(** The store right after the first start on an empty database. *)
Definition fresh_seeded : world := snd (startup_event (Some empty_db)).

(** ** Sample inputs, from the specification's examples *)

Definition alice_address : EmailStr :=
  {| address := "alice@x.com"; address_encodable := eq_refl |}.

Definition bob_address : EmailStr :=
  {| address := "bob@x.com"; address_encodable := eq_refl |}.

Definition dora_address : EmailStr :=
  {| address := "dora@x.com"; address_encodable := eq_refl |}.

Definition admin_address : EmailStr :=
  {| address := "admin@elearning.com"; address_encodable := eq_refl |}.

Definition faculty_address : EmailStr :=
  {| address := "faculty@elearning.com"; address_encodable := eq_refl |}.

(** The text holding the one code point U+D800, a lone surrogate, which the
    [password: str] of both requests admits. *)
Definition lone_surrogate : string :=
  String (ascii_of_N 237) (String (ascii_of_N 160) (String (ascii_of_N 128) EmptyString)).

Definition alice : RegisterRequest.t :=
  {| RegisterRequest.name := "Alice";
     RegisterRequest.email := alice_address;
     RegisterRequest.password := "pw1" |}.

Definition alice_again : RegisterRequest.t :=
  {| RegisterRequest.name := "Alice B";
     RegisterRequest.email := alice_address;
     RegisterRequest.password := "another" |}.

Definition alice_wrong : LoginRequest.t :=
  {| LoginRequest.email := alice_address; LoginRequest.password := "wrong" |}.

(** Alice's registration and two logins with the surrogate password. *)
Definition alice_surrogate : RegisterRequest.t :=
  {| RegisterRequest.name := "Alice";
     RegisterRequest.email := alice_address;
     RegisterRequest.password := lone_surrogate |}.



Definition bob_login : LoginRequest.t :=
  {| LoginRequest.email := bob_address; LoginRequest.password := "pw2" |}.

(** The store after Alice has registered in the empty store, and the
    response she gets. *)
Definition after_alice : world := snd (register alice (Some empty_db)).

Definition alice_response : AuthResponse.t :=
  {| AuthResponse.name := "Alice";
     AuthResponse.email := "alice@x.com";
     AuthResponse.role := "student";
     AuthResponse.token :=
       "e1333d712843961c15dc86105d919889556d116dfced93e21c061c346b6e5b22" |}.

Definition alice_db : Database := store "user" (model_dump (new_user alice)) empty_db.

(** A deactivated account and a store that holds it. *)
Definition dormant : User.t :=
  {| User.name := "Dora";
     User.email := dora_address;
     User.password_hash := fingerprint "pw3";
     User.role := faculty;
     User.is_active := false |}.

Definition dormant_db : Database := store "user" (model_dump dormant) alice_db.

(** A store whose server does not answer. *)
Definition unreachable_db : Database :=
  {| collections := ∅; next_oid := 0%N; outage := Some "No servers found yet" |}.

(** ** Further vocabulary and sample stores *)

(** What the user documents hold under "email", in the store's order. *)
Definition user_emails (db : Database) : list value :=
  map (fun d => dict_get d "email") (docs_of db "user").

(** A store that holds one course which is not among the samples. *)
Definition algebra_db : Database :=
  store "course" (dict [("title", VStr "Algebra"); ("category", VStr "Courses")]) empty_db.

(** Someone registers the address of the baseline administrator. *)
Definition squatter : RegisterRequest.t :=
  {| RegisterRequest.name := "Mallory";
     RegisterRequest.email := admin_address;
     RegisterRequest.password := "mine" |}.

Definition squatted_db : Database := store "user" (model_dump (new_user squatter)) empty_db.

Definition admin_login : LoginRequest.t :=
  {| LoginRequest.email := admin_address; LoginRequest.password := "admin123" |}.

Definition faculty_login : LoginRequest.t :=
  {| LoginRequest.email := faculty_address; LoginRequest.password := "faculty123" |}.

(** User documents written by other means than [register]: one without a
    fingerprint, one without a role, one without a name; and a store that
    holds one of them. *)
Definition old_address : EmailStr :=
  {| address := "old@x.com"; address_encodable := eq_refl |}.

Definition rolf_address : EmailStr :=
  {| address := "rolf@x.com"; address_encodable := eq_refl |}.

Definition nn_address : EmailStr :=
  {| address := "nn@x.com"; address_encodable := eq_refl |}.

Definition no_hash_doc : document :=
  dict [("name", VStr "Old"); ("email", VStr "old@x.com")].

Definition no_role_doc : document :=
  dict [("name", VStr "Rolf"); ("email", VStr "rolf@x.com");
        ("password_hash", VStr (fingerprint "pw5"))].

Definition no_name_doc : document :=
  dict [("email", VStr "nn@x.com"); ("password_hash", VStr (fingerprint "pw6"))].

Definition legacy_db (d : document) : Database := store "user" d empty_db.

(** A course collection with a document that carries no [_id]. *)
Definition logic_course : document :=
  dict [("title", VStr "Logic"); ("category", VStr "Courses")].

Definition raw_courses_db : Database :=
  {| collections := {["course" := [logic_course]]}; next_oid := 0%N; outage := None |}.

(** ** main.py, [test_database] *)

(** Texts are UTF-8: a character is a leading byte with the continuation
    bytes (binary 10xxxxxx) that follow it.  [str_len] is [len(s)] and
    [str_take n s] is [s[:n]], both counted in characters. *)
Definition is_continuation (c : ascii) : bool :=
  ((128 <=? N_of_ascii c) && (N_of_ascii c <? 192))%N.

Fixpoint str_len (s : string) : nat :=
  match s with
  | EmptyString => O
  | String c r => if is_continuation c then str_len r else S (str_len r)
  end.

Fixpoint str_take (n : nat) (s : string) : string :=
  match s with
  | EmptyString => EmptyString
  | String c r =>
      if is_continuation c then String c (str_take n r)
      else match n with
           | O => EmptyString
           | S k => String c (str_take k r)
           end
  end.

(** [db.list_collection_names()]: the names of the collections of the
    store, in the store's order. *)
Definition list_collection_names : M (list string) :=
  driver_call (fun db => (map fst (map_to_list (collections db)), db)).

(** [os.getenv(k)] in an environment, and the truth value of its result:
    [None] and the empty text are false. *)
Definition getenv (environ : gmap string string) (k : string) : option string :=
  environ !! k.

Definition str_truthy (o : option string) : bool :=
  match o with
  | Some s => negb (String.eqb s "")
  | None => false
  end.

(** The dict that [test_database] builds; [None] under "database_url" and
    "database_name" is Python's [None]. *)
Module TestResponse.
Record t : Type := {
  backend : string;
  database : string;
  database_url : option string;
  database_name : option string;
  connection_status : string;
  collections : list string
}.

Definition set_database (v : string) (r : t) : t :=
  {| backend := backend r; database := v; database_url := database_url r;
     database_name := database_name r; connection_status := connection_status r;
     collections := collections r |}.

Definition set_database_url (v : option string) (r : t) : t :=
  {| backend := backend r; database := database r; database_url := v;
     database_name := database_name r; connection_status := connection_status r;
     collections := collections r |}.

Definition set_database_name (v : option string) (r : t) : t :=
  {| backend := backend r; database := database r; database_url := database_url r;
     database_name := v; connection_status := connection_status r;
     collections := collections r |}.

Definition set_connection_status (v : string) (r : t) : t :=
  {| backend := backend r; database := database r; database_url := database_url r;
     database_name := database_name r; connection_status := v;
     collections := collections r |}.

Definition set_collections (v : list string) (r : t) : t :=
  {| backend := backend r; database := database r; database_url := database_url r;
     database_name := database_name r; connection_status := connection_status r;
     collections := v |}.
End TestResponse.

(** [test_database].  The handle's [name] attribute is not part of the
    store's state here: [db_name] gives it, [None] when [hasattr(db, 'name')]
    is false.  [environ] is the process environment.  The first [let] is the
    outer [try] body with the response as the assignments left it, the
    second the outer [except]. *)
Definition test_database (db_name : Database -> option string)
           (environ : gmap string string) : M TestResponse.t :=
  fun w =>
    let response :=
      {| TestResponse.backend := "✅ Running";
         TestResponse.database := "❌ Not Available";
         TestResponse.database_url := None;
         TestResponse.database_name := None;
         TestResponse.connection_status := "Not Connected";
         TestResponse.collections := [] |} in
    let attempt : outcome unit * TestResponse.t :=
      match w with
      | Some db =>
          let response := TestResponse.set_database "✅ Available" response in
          let response :=
            TestResponse.set_database_url (Some "✅ Configured") response in
          let response :=
            TestResponse.set_database_name
              (Some (match db_name db with
                     | Some name => name
                     | None => "✅ Connected"
                     end)) response in
          let response := TestResponse.set_connection_status "Connected" response in
          match list_collection_names w with
          | (Returned collections, _) =>
              let response :=
                TestResponse.set_collections (take 10 collections) response in
              (Returned tt, TestResponse.set_database "✅ Connected & Working" response)
          | (Raised e, _) =>
              (Returned tt,
               TestResponse.set_database
                 ("⚠️  Connected but Error: " +:+ str_take 50 (exn_str e)) response)
          end
      | None =>
          (Returned tt,
           TestResponse.set_database "⚠️  Available but not initialized" response)
      end in
    let response :=
      match attempt with
      | (Returned _, response) => response
      | (Raised e, response) =>
          TestResponse.set_database ("❌ Error: " +:+ str_take 50 (exn_str e)) response
      end in
    let response :=
      TestResponse.set_database_url
        (Some (if str_truthy (getenv environ "DATABASE_URL")
               then "✅ Set" else "❌ Not Set")) response in
    let response :=
      TestResponse.set_database_name
        (Some (if str_truthy (getenv environ "DATABASE_NAME")
               then "✅ Set" else "❌ Not Set")) response in
    (Returned response, w).

(** Sample environments and a name for the handle. *)
Definition configured_environ : gmap string string :=
  {[ "DATABASE_URL" := "mongodb://localhost:27017"; "DATABASE_NAME" := "elearning" ]}.

Definition blank_environ : gmap string string :=
  {[ "DATABASE_URL" := ""; "PORT" := "8000" ]}.

Definition handle_name (db : Database) : option string := Some "elearning".

(** * Properties *)

(** ** The fingerprint *)

(** Test vectors of FIPS 180-4, and a text whose padding takes a second
    block. *)
Example hash_password_empty :
  hash_password ""
  = Returned "e3b0c44298fc1c149afbf4c8996fb92427ae41e4649b934ca495991b7852b855"%string.
Proof. vm_compute. reflexivity. Qed.

Example hash_password_abc :
  hash_password "abc"
  = Returned "ba7816bf8f01cfea414140de5dae2223b00361a396177a9cb410ff61f20015ad"%string.
Proof. vm_compute. reflexivity. Qed.

Example hash_password_two_blocks :
  hash_password "aaaaaaaaaaaaaaaaaaaaaaaaaaaaaaaaaaaaaaaaaaaaaaaaaaaaaaaa"
  = Returned "b35439a4ac6f0948b6d6f9e3c6af0f5f590ce20f1bde7090ef7970686ec6738a"%string.
Proof. vm_compute. reflexivity. Qed.

(** A lone surrogate cannot be hashed. *)
Example hash_password_lone_surrogate :
  hash_password lone_surrogate = Raised UnicodeEncodeError.
Proof. reflexivity. Qed.

Lemma string_length_app (s1 s2 : string) :
  String.length (s1 +:+ s2) = (String.length s1 + String.length s2)%nat.
Proof. induction s1 as [|c s1 IH]; simpl; [reflexivity | now rewrite IH]. Qed.

Lemma string_forallb_app (p : ascii -> bool) (s1 s2 : string) :
  string_forallb p (s1 +:+ s2) = string_forallb p s1 && string_forallb p s2.
Proof.
  induction s1 as [|c s1 IH]; simpl; [reflexivity|].
  rewrite IH. now destruct (p c).
Qed.

Lemma hex_fixed_length (n : nat) (x : Z) : String.length (hex_fixed n x) = n.
Proof.
  revert x. induction n as [|n IH]; intros x; simpl; [reflexivity|].
  rewrite string_length_app, IH. simpl. lia.
Qed.

Lemma hex_digit_is_hex (d : Z) : 0 <= d < 16 -> is_hex_char (hex_digit d) = true.
Proof.
  intros Hd.
  assert (Hcases : d = 0 \/ d = 1 \/ d = 2 \/ d = 3 \/ d = 4 \/ d = 5 \/ d = 6 \/ d = 7 \/
                   d = 8 \/ d = 9 \/ d = 10 \/ d = 11 \/ d = 12 \/ d = 13 \/ d = 14 \/ d = 15)
    by lia.
  repeat (destruct Hcases as [->|Hcases]; [reflexivity|]). now subst d.
Qed.

Lemma hex_fixed_is_hex (n : nat) (x : Z) : string_forallb is_hex_char (hex_fixed n x) = true.
Proof.
  revert x. induction n as [|n IH]; intros x; simpl; [reflexivity|].
  rewrite string_forallb_app, IH. simpl.
  rewrite hex_digit_is_hex; [reflexivity|]. apply Z.mod_pos_bound. lia.
Qed.

(** The fingerprint has 64 characters, whatever the text. *)
Lemma fingerprint_length (s : string) : String.length (fingerprint s) = 64%nat.
Proof.
  unfold fingerprint, SHA256.hexdigest.
  rewrite !string_length_app, !hex_fixed_length. reflexivity.
Qed.

Lemma fingerprint_hex (s : string) : string_forallb is_hex_char (fingerprint s) = true.
Proof.
  unfold fingerprint, SHA256.hexdigest.
  rewrite !string_forallb_app, !hex_fixed_is_hex. reflexivity.
Qed.

(** [hash_password] returns exactly on the texts without surrogates, and
    then their fingerprint; on the others it raises. *)
Lemma hash_password_encodable (s : string) :
  has_surrogate s = false -> hash_password s = Returned (fingerprint s).
Proof. intros H. unfold hash_password, encode. now rewrite H. Qed.

Lemma hash_password_surrogate (s : string) :
  has_surrogate s = true -> hash_password s = Raised UnicodeEncodeError.
Proof. intros H. unfold hash_password, encode. now rewrite H. Qed.

Lemma hash_password_returned (s h : string) :
  hash_password s = Returned h <-> has_surrogate s = false /\ h = fingerprint s.
Proof.
  destruct (has_surrogate s) eqn:Hs.
  - rewrite (hash_password_surrogate _ Hs). split; [discriminate | intros [H _]; discriminate].
  - rewrite (hash_password_encodable _ Hs). split.
    + intros H. inversion H. split; reflexivity.
    + intros [_ ->]. reflexivity.
Qed.

Lemma hash_password_raised (s : string) (e : exn) :
  hash_password s = Raised e <-> has_surrogate s = true /\ e = UnicodeEncodeError.
Proof.
  destruct (has_surrogate s) eqn:Hs.
  - rewrite (hash_password_surrogate _ Hs). split.
    + intros H. inversion H. split; reflexivity.
    + intros [_ ->]. reflexivity.
  - rewrite (hash_password_encodable _ Hs). split; [discriminate | intros [H _]; discriminate].
Qed.

(** The text [a + "|" + b] holds a surrogate exactly when [a] or [b] does:
    the separator is neither the first nor the second byte of one. *)
Lemma has_surrogate_join (a b : string) :
  has_surrogate (a +:+ "|" +:+ b) = has_surrogate a || has_surrogate b.
Proof.
  induction a as [|c a IH].
  - reflexivity.
  - change (String c a +:+ "|" +:+ b) with (String c (a +:+ "|" +:+ b)).
    cbn [has_surrogate]. rewrite IH.
    assert (Hlow : starts_low (a +:+ "|" +:+ b) = starts_low a).
    { destruct a; reflexivity. }
    rewrite Hlow. now rewrite orb_assoc.
Qed.

(** With an address of a request, the text of the token can be encoded as
    soon as the password can. *)
Lemma token_text_encodable (e : EmailStr) (p : string) :
  has_surrogate (e +:+ "|" +:+ p) = has_surrogate p.
Proof. now rewrite has_surrogate_join, (address_encodable e). Qed.

Lemma call_run {A} (o : outcome A) (w : world) : call o w = (o, w).
Proof. reflexivity. Qed.

(** ** Running the monad *)

Lemma bind_returned {A B} (m : M A) (k : A -> M B) (w w' : world) (a : A) :
  m w = (Returned a, w') -> bind m k w = k a w'.
Proof. intros H. unfold bind. now rewrite H. Qed.

Lemma bind_raised {A B} (m : M A) (k : A -> M B) (w w' : world) (e : exn) :
  m w = (Raised e, w') -> bind m k w = (Raised e, w').
Proof. intros H. unfold bind. now rewrite H. Qed.

Lemma try_except_returned {A} (m : M A) (h : exn -> M A) (w w' : world) (a : A) :
  m w = (Returned a, w') -> try_except m h w = (Returned a, w').
Proof. intros H. unfold try_except. now rewrite H. Qed.

Lemma try_except_raised {A} (m : M A) (h : exn -> M A) (w w' : world) (e : exn) :
  m w = (Raised e, w') -> try_except m h w = h e w'.
Proof. intros H. unfold try_except. now rewrite H. Qed.

Lemma db_is_None_handle (db : Database) :
  db_is_None (Some db) = (Returned false, Some db).
Proof. reflexivity. Qed.

Lemma driver_call_up {A} (f : Database -> A * Database) (db : Database) :
  outage db = None ->
  driver_call f (Some db) = (Returned (fst (f db)), Some (snd (f db))).
Proof. intros H. unfold driver_call. rewrite H. now destruct (f db). Qed.

Lemma driver_call_down {A} (f : Database -> A * Database) (db : Database) (msg : string) :
  outage db = Some msg ->
  driver_call f (Some db) = (Raised (PyException "ServerSelectionTimeoutError" msg), Some db).
Proof. intros H. unfold driver_call. now rewrite H. Qed.

Lemma find_one_up (coll : string) (q : list (string * value)) (db : Database) :
  outage db = None ->
  find_one coll q (Some db) = (Returned (List.find (matches q) (docs_of db coll)), Some db).
Proof. intros H. unfold find_one. now rewrite driver_call_up. Qed.

Lemma find_up (coll : string) (q : list (string * value)) (db : Database) :
  outage db = None ->
  find coll q (Some db) = (Returned (List.filter (matches q) (docs_of db coll)), Some db).
Proof. intros H. unfold find. now rewrite driver_call_up. Qed.

Lemma count_documents_up (coll : string) (q : list (string * value)) (db : Database) :
  outage db = None ->
  count_documents coll q (Some db)
  = (Returned (length (List.filter (matches q) (docs_of db coll))), Some db).
Proof. intros H. unfold count_documents. now rewrite driver_call_up. Qed.

Lemma insert_one_up (coll : string) (d : document) (db : Database) :
  outage db = None ->
  insert_one coll d (Some db) = (Returned tt, Some (store coll d db)).
Proof. intros H. unfold insert_one. now rewrite driver_call_up. Qed.

Lemma insert_many_up (coll : string) (ds : list document) (db : Database) :
  outage db = None ->
  insert_many coll ds (Some db)
  = (Returned tt, Some (fold_left (fun acc d => store coll d acc) ds db)).
Proof. intros H. unfold insert_many. now rewrite driver_call_up. Qed.

(** ** The store *)

Lemma docs_of_store (coll : string) (d : document) (db : Database) :
  docs_of (store coll d db) coll = docs_of db coll ++ [with_id d (next_oid db)].
Proof. unfold docs_of at 1, store. simpl. now rewrite lookup_insert_eq. Qed.

Lemma docs_of_store_other (coll coll' : string) (d : document) (db : Database) :
  coll <> coll' -> docs_of (store coll d db) coll' = docs_of db coll'.
Proof. intros H. unfold docs_of, store. simpl. now rewrite lookup_insert_ne. Qed.

Lemma find_app_l {A} (f : A -> bool) (l l' : list A) (x : A) :
  List.find f l = Some x -> List.find f (l ++ l') = Some x.
Proof.
  induction l as [|y l IH]; simpl; [discriminate|].
  destruct (f y); [trivial | exact IH].
Qed.

Lemma find_app_r {A} (f : A -> bool) (l l' : list A) :
  List.find f l = None -> List.find f (l ++ l') = List.find f l'.
Proof.
  induction l as [|y l IH]; simpl; [reflexivity|].
  destruct (f y); [discriminate | exact IH].
Qed.

Lemma matches_email (d : document) (e : string) :
  matches [("email", VStr e)] d = true <-> d !! "email" = Some (VStr e).
Proof.
  unfold matches, field_matches. simpl. rewrite andb_true_r.
  apply bool_decide_eq_true.
Qed.

Lemma stored_user_Some (db : Database) (e : string) (d : document) :
  stored_user db e = Some d -> In d (docs_of db "user") /\ d !! "email" = Some (VStr e).
Proof.
  intros H. apply find_some in H. destruct H as [Hin Hm].
  split; [exact Hin | now apply matches_email].
Qed.

Lemma stored_user_None (db : Database) (e : string) :
  stored_user db e = None <->
  forall d, In d (docs_of db "user") -> d !! "email" <> Some (VStr e).
Proof.
  split.
  - intros H d Hin Hd. apply matches_email in Hd.
    pose proof (find_none _ _ H d Hin) as Hf. congruence.
  - intros H. unfold stored_user.
    destruct (List.find _ _) as [d|] eqn:Hf; [|reflexivity].
    apply find_some in Hf. destruct Hf as [Hin Hm].
    apply matches_email in Hm. now apply H in Hin.
Qed.

(** What [find_one] returns for an address is a non-empty dict, hence true. *)
Lemma truthy_stored_user (db : Database) (e : string) :
  truthy (stored_user db e) = bool_decide (is_Some (stored_user db e)).
Proof.
  destruct (stored_user db e) as [d|] eqn:H; simpl.
  - apply stored_user_Some in H. destruct H as [_ H].
    rewrite bool_decide_eq_false_2; [reflexivity|].
    intros ->. rewrite lookup_empty in H. discriminate.
  - reflexivity.
Qed.

(** ** The documents of users *)

Lemma model_dump_fields (u : User.t) :
  model_dump u !! "_id" = None /\
  model_dump u !! "name" = Some (VStr (User.name u)) /\
  model_dump u !! "email" = Some (VStr (User.email u)) /\
  model_dump u !! "password_hash" = Some (VStr (User.password_hash u)) /\
  model_dump u !! "role" = Some (VStr (role_str (User.role u))) /\
  model_dump u !! "is_active" = Some (VBool (User.is_active u)) /\
  model_dump u !! "password" = None.
Proof. destruct u. repeat split. Qed.

Lemma with_id_fresh (d : document) (oid : N) :
  d !! "_id" = None -> with_id d oid = <["_id" := VOid oid]> d.
Proof. intros H. unfold with_id. now rewrite H. Qed.

Lemma with_id_lookup (d : document) (oid : N) (k : string) :
  k <> "_id" -> with_id d oid !! k = d !! k.
Proof.
  intros H. unfold with_id. destruct (d !! "_id"); [reflexivity|].
  now rewrite lookup_insert_ne.
Qed.

Lemma with_id_has_id (d : document) (oid : N) : is_Some (with_id d oid !! "_id").
Proof.
  unfold with_id. destruct (d !! "_id") as [v|] eqn:H.
  - rewrite H. eauto.
  - rewrite lookup_insert_eq. eauto.
Qed.

(** ** [register] and [login], case by case *)

Lemma register_no_handle (req : RegisterRequest.t) :
  register req None = (Raised Unavailable, None).
Proof. reflexivity. Qed.

Lemma register_taken (db : Database) (req : RegisterRequest.t) :
  outage db = None ->
  is_Some (stored_user db (RegisterRequest.email req)) ->
  register req (Some db) = (Raised Conflict, Some db).
Proof.
  intros Hup Hsome. unfold register.
  rewrite (bind_returned _ _ _ _ _ (db_is_None_handle db)).
  rewrite (bind_returned _ _ _ _ _ (find_one_up _ _ _ Hup)).
  fold (stored_user db (RegisterRequest.email req)).
  rewrite truthy_stored_user, bool_decide_eq_true_2 by exact Hsome.
  reflexivity.
Qed.

Lemma register_fresh (db : Database) (req : RegisterRequest.t) :
  outage db = None ->
  stored_user db (RegisterRequest.email req) = None ->
  has_surrogate (RegisterRequest.password req) = false ->
  register req (Some db)
  = (Returned {| AuthResponse.name := RegisterRequest.name req;
                 AuthResponse.email := RegisterRequest.email req;
                 AuthResponse.role := "student";
                 AuthResponse.token :=
                   fingerprint (RegisterRequest.email req +:+ "|"
                                  +:+ RegisterRequest.password req) |},
     Some (store "user" (model_dump (new_user req)) db)).
Proof.
  intros Hup Hnone Hpw. unfold register.
  rewrite (bind_returned _ _ _ _ _ (db_is_None_handle db)).
  rewrite (bind_returned _ _ _ _ _ (find_one_up _ _ _ Hup)).
  fold (stored_user db (RegisterRequest.email req)). rewrite Hnone.
  cbn [truthy].
  rewrite (hash_password_encodable _ Hpw).
  rewrite (bind_returned _ _ _ _ _ (call_run _ _)).
  fold (new_user req). unfold create_document.
  rewrite (bind_returned _ _ _ _ _ (insert_one_up _ _ _ Hup)).
  rewrite hash_password_encodable by now rewrite token_text_encodable.
  rewrite (bind_returned _ _ _ _ _ (call_run _ _)).
  reflexivity.
Qed.

(** A password that cannot be encoded makes [register] raise at
    [hash_password(req.password)], before anything is stored. *)
Lemma register_unencodable (db : Database) (req : RegisterRequest.t) :
  outage db = None ->
  stored_user db (RegisterRequest.email req) = None ->
  has_surrogate (RegisterRequest.password req) = true ->
  register req (Some db) = (Raised UnicodeEncodeError, Some db).
Proof.
  intros Hup Hnone Hpw. unfold register.
  rewrite (bind_returned _ _ _ _ _ (db_is_None_handle db)).
  rewrite (bind_returned _ _ _ _ _ (find_one_up _ _ _ Hup)).
  fold (stored_user db (RegisterRequest.email req)). rewrite Hnone.
  cbn [truthy].
  rewrite (hash_password_surrogate _ Hpw).
  now rewrite (bind_raised _ _ _ _ _ (call_run _ _)).
Qed.

Lemma login_no_handle (req : LoginRequest.t) :
  login req None = (Raised Unavailable, None).
Proof. reflexivity. Qed.

Lemma login_unknown (db : Database) (req : LoginRequest.t) :
  outage db = None ->
  stored_user db (LoginRequest.email req) = None ->
  login req (Some db) = (Raised Unauthorized, Some db).
Proof.
  intros Hup Hnone. unfold login.
  rewrite (bind_returned _ _ _ _ _ (db_is_None_handle db)).
  rewrite (bind_returned _ _ _ _ _ (find_one_up _ _ _ Hup)).
  fold (stored_user db (LoginRequest.email req)). rewrite Hnone.
  reflexivity.
Qed.

Lemma login_known (db : Database) (req : LoginRequest.t) (found : document) :
  outage db = None ->
  stored_user db (LoginRequest.email req) = Some found ->
  has_surrogate (LoginRequest.password req) = false ->
  login req (Some db)
  = if bool_decide (dict_get found "password_hash"
                    = VStr (fingerprint (LoginRequest.password req)))
    then AuthResponse.validate
           (dict_get found "name") (dict_get found "email")
           (dict_get_or found "role" (VStr "student"))
           (fingerprint (LoginRequest.email req +:+ "|" +:+ LoginRequest.password req))
           (Some db)
    else (Raised Unauthorized, Some db).
Proof.
  intros Hup Hsome Hpw. unfold login.
  rewrite (bind_returned _ _ _ _ _ (db_is_None_handle db)).
  rewrite (bind_returned _ _ _ _ _ (find_one_up _ _ _ Hup)).
  fold (stored_user db (LoginRequest.email req)).
  rewrite truthy_stored_user, Hsome, bool_decide_eq_true_2 by eauto.
  cbn [negb default].
  rewrite (hash_password_encodable _ Hpw).
  rewrite (bind_returned _ _ _ _ _ (call_run _ _)).
  destruct (bool_decide _); [|reflexivity]. cbn [negb].
  rewrite hash_password_encodable by now rewrite token_text_encodable.
  now rewrite (bind_returned _ _ _ _ _ (call_run _ _)).
Qed.

(** A password that cannot be encoded makes [login] raise at
    [hash_password(req.password)], once the address has been found. *)
Lemma login_unencodable (db : Database) (req : LoginRequest.t) (found : document) :
  outage db = None ->
  stored_user db (LoginRequest.email req) = Some found ->
  has_surrogate (LoginRequest.password req) = true ->
  login req (Some db) = (Raised UnicodeEncodeError, Some db).
Proof.
  intros Hup Hsome Hpw. unfold login.
  rewrite (bind_returned _ _ _ _ _ (db_is_None_handle db)).
  rewrite (bind_returned _ _ _ _ _ (find_one_up _ _ _ Hup)).
  fold (stored_user db (LoginRequest.email req)).
  rewrite truthy_stored_user, Hsome, bool_decide_eq_true_2 by eauto.
  cbn [negb default].
  rewrite (hash_password_surrogate _ Hpw).
  now rewrite (bind_raised _ _ _ _ _ (call_run _ _)).
Qed.

Lemma register_down (db : Database) (req : RegisterRequest.t) (msg : string) :
  outage db = Some msg ->
  register req (Some db)
  = (Raised (PyException "ServerSelectionTimeoutError" msg), Some db).
Proof.
  intros Hdown. unfold register.
  rewrite (bind_returned _ _ _ _ _ (db_is_None_handle db)).
  cbv beta iota. apply bind_raised.
  unfold find_one. now apply driver_call_down.
Qed.

Lemma login_down (db : Database) (req : LoginRequest.t) (msg : string) :
  outage db = Some msg ->
  login req (Some db)
  = (Raised (PyException "ServerSelectionTimeoutError" msg), Some db).
Proof.
  intros Hdown. unfold login.
  rewrite (bind_returned _ _ _ _ _ (db_is_None_handle db)).
  cbv beta iota. apply bind_raised.
  unfold find_one. now apply driver_call_down.
Qed.

(** A successful [register] started from a reachable store without the
    address, with a password that can be encoded, and left the store with
    one more user document. *)
Lemma register_returned_inv (req : RegisterRequest.t) (w w' : world) (resp : AuthResponse.t) :
  register req w = (Returned resp, w') ->
  exists db, w = Some db /\ outage db = None /\
             stored_user db (RegisterRequest.email req) = None /\
             has_surrogate (RegisterRequest.password req) = false /\
             w' = Some (store "user" (model_dump (new_user req)) db).
Proof.
  intros H. destruct w as [db|]; [|rewrite register_no_handle in H; discriminate].
  destruct (outage db) as [msg|] eqn:Hup.
  { rewrite (register_down _ _ _ Hup) in H. discriminate. }
  destruct (stored_user db (RegisterRequest.email req)) as [d|] eqn:Hd.
  { rewrite register_taken in H by (rewrite ?Hd; eauto). discriminate. }
  destruct (has_surrogate (RegisterRequest.password req)) eqn:Hpw.
  { rewrite (register_unencodable _ _ Hup Hd Hpw) in H. discriminate. }
  rewrite (register_fresh _ _ Hup Hd Hpw) in H. inversion H; subst.
  exists db. repeat split; assumption.
Qed.

Lemma find_none_filter {A} (f : A -> bool) (l : list A) :
  List.find f l = None -> List.filter f l = [].
Proof.
  induction l as [|x l IH]; simpl; [reflexivity|].
  destruct (f x); [discriminate | exact IH].
Qed.

Lemma new_user_matches (req : RegisterRequest.t) (oid : N) :
  matches [("email", VStr (RegisterRequest.email req))]
          (with_id (model_dump (new_user req)) oid) = true.
Proof.
  apply matches_email. rewrite with_id_lookup by discriminate.
  apply (model_dump_fields (new_user req)).
Qed.

Lemma stored_user_registered (db : Database) (req : RegisterRequest.t) :
  stored_user db (RegisterRequest.email req) = None ->
  stored_user (store "user" (model_dump (new_user req)) db) (RegisterRequest.email req)
  = Some (with_id (model_dump (new_user req)) (next_oid db)).
Proof.
  intros Hnone. unfold stored_user. rewrite docs_of_store.
  rewrite find_app_r by exact Hnone. cbn [List.find].
  now rewrite new_user_matches.
Qed.

(** [login] on a stored document with matching fingerprint, string name and
    string role. *)
Lemma login_accepts (db : Database) (req : LoginRequest.t) (found : document)
      (name role : string) :
  outage db = None ->
  stored_user db (LoginRequest.email req) = Some found ->
  has_surrogate (LoginRequest.password req) = false ->
  found !! "password_hash" = Some (VStr (fingerprint (LoginRequest.password req))) ->
  found !! "name" = Some (VStr name) ->
  found !! "role" = Some (VStr role) ->
  login req (Some db)
  = (Returned {| AuthResponse.name := name;
                 AuthResponse.email := LoginRequest.email req;
                 AuthResponse.role := role;
                 AuthResponse.token :=
                   fingerprint (LoginRequest.email req +:+ "|"
                                  +:+ LoginRequest.password req) |},
     Some db).
Proof.
  intros Hup Hfound Hpw Hhash Hname Hrole.
  rewrite (login_known _ _ _ Hup Hfound Hpw).
  destruct (stored_user_Some _ _ _ Hfound) as [_ Hemail].
  unfold dict_get, dict_get_or. rewrite Hhash, Hname, Hrole, Hemail.
  cbn [default]. rewrite bool_decide_eq_true_2 by reflexivity.
  reflexivity.
Qed.

(** ** Registration and login *)

(** C1, as the code has it: for every request whose password can be encoded
    (it holds no lone surrogate), on an available store in which [find_one]
    finds no user with the address, [register] succeeds, and a [login] with
    the same address and password right after it succeeds too and returns
    the same response, in particular the same token. *)
Theorem register_then_login (db : Database) (req : RegisterRequest.t) :
  outage db = None ->
  stored_user db (RegisterRequest.email req) = None ->
  has_surrogate (RegisterRequest.password req) = false ->
  exists (resp resp' : AuthResponse.t) (db' : Database),
    register req (Some db) = (Returned resp, Some db') /\
    login (credentials req) (Some db') = (Returned resp', Some db') /\
    AuthResponse.token resp' = AuthResponse.token resp /\
    resp' = resp.
Proof.
  intros Hup Hnone Hpw. eexists _, _, _.
  split; [apply (register_fresh _ _ Hup Hnone Hpw)|].
  split; [|split; reflexivity].
  pose proof (model_dump_fields (new_user req)) as (Hid & Hn & _ & Hh & Hr & _).
  assert (Hup' : outage (store "user" (model_dump (new_user req)) db) = None)
    by exact Hup.
  apply (login_accepts _ (credentials req) _ _ _ Hup' (stored_user_registered _ _ Hnone) Hpw);
    rewrite with_id_lookup by discriminate; assumption.
Qed.

Lemma register_then_login_witness :
  outage empty_db = None /\
  stored_user empty_db (RegisterRequest.email alice) = None /\
  has_surrogate (RegisterRequest.password alice) = false /\
  exists (resp resp' : AuthResponse.t) (db' : Database),
    register alice (Some empty_db) = (Returned resp, Some db') /\
    login (credentials alice) (Some db') = (Returned resp', Some db') /\
    AuthResponse.token resp' = AuthResponse.token resp /\
    resp' = resp.
Proof.
  split; [reflexivity|]. split; [reflexivity|]. split; [reflexivity|].
  apply (register_then_login empty_db alice); reflexivity.
Defined.

(** C1, as the specification words it, fails: the request model accepts a
    password that holds a lone surrogate, and with it [register] raises at
    [hash_password(req.password)] instead of succeeding, on the empty store
    and with a new address. *)
Lemma register_surrogate_password_raises :
  outage empty_db = None /\
  stored_user empty_db (RegisterRequest.email alice_surrogate) = None /\
  register alice_surrogate (Some empty_db)
  = (Raised (PyException "UnicodeEncodeError" "surrogates not allowed"), Some empty_db) /\
  (forall resp w', register alice_surrogate (Some empty_db) <> (Returned resp, w')).
Proof.
  assert (H : register alice_surrogate (Some empty_db)
              = (Raised UnicodeEncodeError, Some empty_db))
    by (apply register_unencodable; reflexivity).
  split; [reflexivity|]. split; [reflexivity|]. split; [exact H|].
  intros resp w' H'. rewrite H in H'. discriminate H'.
Qed.

Lemma validate_returned (name email role : value) (token : string)
      (w w' : world) (resp : AuthResponse.t) :
  AuthResponse.validate name email role token w = (Returned resp, w') ->
  AuthResponse.token resp = token /\ w' = w.
Proof.
  unfold AuthResponse.validate.
  destruct name, email, role; try discriminate.
  intros H. inversion H. split; reflexivity.
Qed.

Lemma login_returned_inv (req : LoginRequest.t) (w w' : world) (resp : AuthResponse.t) :
  login req w = (Returned resp, w') ->
  w' = w /\
  has_surrogate (LoginRequest.password req) = false /\
  AuthResponse.token resp
  = fingerprint (LoginRequest.email req +:+ "|" +:+ LoginRequest.password req) /\
  exists db found,
    w = Some db /\ outage db = None /\
    stored_user db (LoginRequest.email req) = Some found /\
    dict_get found "password_hash" = VStr (fingerprint (LoginRequest.password req)).
Proof.
  intros H. destruct w as [db|]; [|rewrite login_no_handle in H; discriminate].
  destruct (outage db) as [msg|] eqn:Hup.
  { rewrite (login_down _ _ _ Hup) in H. discriminate. }
  destruct (stored_user db (LoginRequest.email req)) as [found|] eqn:Hd.
  2: { rewrite (login_unknown _ _ Hup Hd) in H. discriminate. }
  destruct (has_surrogate (LoginRequest.password req)) eqn:Hpw.
  { rewrite (login_unencodable _ _ _ Hup Hd Hpw) in H. discriminate. }
  rewrite (login_known _ _ _ Hup Hd Hpw) in H.
  destruct (bool_decide _) eqn:Hb; [|discriminate].
  apply bool_decide_eq_true in Hb.
  apply validate_returned in H. destruct H as [Htok ->].
  split; [reflexivity|]. split; [reflexivity|]. split; [exact Htok|]. eauto 10.
Qed.

Lemma run_call_token (c : auth_call) (w w' : world) (resp : AuthResponse.t) :
  run_call c w = (Returned resp, w') ->
  hash_password (call_email c +:+ "|" +:+ call_password c)
  = Returned (AuthResponse.token resp) /\
  AuthResponse.token resp = fingerprint (call_email c +:+ "|" +:+ call_password c).
Proof.
  destruct c as [req|req]; cbn [run_call call_email call_password]; intros H.
  - destruct (register_returned_inv _ _ _ _ H) as (db & -> & Hup & Hnone & Hpw & ->).
    rewrite (register_fresh _ _ Hup Hnone Hpw) in H. inversion H.
    cbn [AuthResponse.token].
    rewrite hash_password_encodable by now rewrite token_text_encodable.
    split; reflexivity.
  - apply login_returned_inv in H. destruct H as (_ & Hpw & -> & _).
    rewrite hash_password_encodable by now rewrite token_text_encodable.
    split; reflexivity.
Qed.

(** C2: the token that [register] and [login] return is what
    [hash_password (email + "|" + password)] returns, the function that also
    computes the stored fingerprint: 64 hexadecimal characters; two calls,
    each of either handler, with the same address and password return the
    same token. *)
Theorem token_is_fingerprint_of_credentials
        (c1 c2 : auth_call) (w1 w1' w2 w2' : world) (r1 r2 : AuthResponse.t) :
  run_call c1 w1 = (Returned r1, w1') ->
  run_call c2 w2 = (Returned r2, w2') ->
  hash_password (call_email c1 +:+ "|" +:+ call_password c1)
  = Returned (AuthResponse.token r1) /\
  hash_password (call_email c2 +:+ "|" +:+ call_password c2)
  = Returned (AuthResponse.token r2) /\
  String.length (AuthResponse.token r1) = 64%nat /\
  string_forallb is_hex_char (AuthResponse.token r1) = true /\
  (call_email c1 = call_email c2 -> call_password c1 = call_password c2 ->
   AuthResponse.token r1 = AuthResponse.token r2).
Proof.
  intros H1 H2.
  apply run_call_token in H1. apply run_call_token in H2.
  destruct H1 as [H1 T1]. destruct H2 as [H2 T2].
  split; [exact H1|]. split; [exact H2|].
  rewrite T1, T2.
  split; [apply fingerprint_length|].
  split; [apply fingerprint_hex|].
  intros -> ->. reflexivity.
Qed.

Lemma token_is_fingerprint_of_credentials_witness :
  run_call (RegisterCall alice) (Some empty_db) = (Returned alice_response, after_alice) /\
  run_call (LoginCall (credentials alice)) after_alice = (Returned alice_response, after_alice) /\
  hash_password ("alice@x.com" +:+ "|" +:+ "pw1")
  = Returned (AuthResponse.token alice_response) /\
  String.length (AuthResponse.token alice_response) = 64%nat.
Proof.
  assert (H1 : run_call (RegisterCall alice) (Some empty_db)
               = (Returned alice_response, after_alice))
    by (vm_compute; reflexivity).
  assert (H2 : run_call (LoginCall (credentials alice)) after_alice
               = (Returned alice_response, after_alice))
    by (vm_compute; reflexivity).
  destruct (token_is_fingerprint_of_credentials _ _ _ _ _ _ _ _ H1 H2)
    as (Ht & _ & Hl & _).
  split; [exact H1|]. split; [exact H2|]. split; [exact Ht | exact Hl].
Defined.

(** C4, as the code has it: on an available store without the address, the
    first [register], with a password that can be encoded, succeeds; a
    second [register] with the same address, whatever its name and password,
    is refused with status 400 and detail "Email already registered", and
    persists nothing: the store is the one the first call left, with exactly
    one user document for the address. *)
Theorem register_twice_conflict (db : Database) (first second : RegisterRequest.t) :
  outage db = None ->
  stored_user db (RegisterRequest.email first) = None ->
  has_surrogate (RegisterRequest.password first) = false ->
  address (RegisterRequest.email second) = address (RegisterRequest.email first) ->
  exists (resp : AuthResponse.t) (db' : Database),
    register first (Some db) = (Returned resp, Some db') /\
    register second (Some db')
    = (Raised (HTTPException 400 "Email already registered"), Some db') /\
    length (docs_of db' "user") = S (length (docs_of db "user")) /\
    length (List.filter (matches [("email", VStr (RegisterRequest.email first))])
                        (docs_of db' "user")) = 1%nat.
Proof.
  intros Hup Hnone Hpw Hsame.
  eexists _, _. split; [apply (register_fresh _ _ Hup Hnone Hpw)|].
  split; [|split].
  - apply register_taken; [exact Hup|].
    rewrite Hsame, (stored_user_registered _ _ Hnone). eauto.
  - rewrite docs_of_store. apply last_length.
  - rewrite docs_of_store, List.filter_app, (find_none_filter _ _ Hnone).
    cbn [List.filter app]. now rewrite new_user_matches.
Qed.

Lemma register_twice_conflict_witness :
  outage empty_db = None /\
  stored_user empty_db (RegisterRequest.email alice) = None /\
  has_surrogate (RegisterRequest.password alice) = false /\
  address (RegisterRequest.email alice_again) = address (RegisterRequest.email alice) /\
  exists (resp : AuthResponse.t) (db' : Database),
    register alice (Some empty_db) = (Returned resp, Some db') /\
    register alice_again (Some db')
    = (Raised (HTTPException 400 "Email already registered"), Some db') /\
    length (docs_of db' "user") = S (length (docs_of empty_db "user")) /\
    length (List.filter (matches [("email", VStr (RegisterRequest.email alice))])
                        (docs_of db' "user")) = 1%nat.
Proof.
  split; [reflexivity|]. split; [reflexivity|]. split; [reflexivity|].
  split; [reflexivity|].
  apply (register_twice_conflict empty_db alice alice_again); reflexivity.
Defined.

(** C4, as the specification words it, fails: with a first password that
    holds a lone surrogate, the first [register] does not succeed but
    raises, stores nothing, and the second call with the same address is not
    refused with status 400: it raises the same error again. *)
Lemma first_register_with_surrogate_fails :
  fst (register alice_surrogate (Some empty_db))
  = Raised (PyException "UnicodeEncodeError" "surrogates not allowed") /\
  snd (register alice_surrogate (Some empty_db)) = Some empty_db /\
  fst (register alice_surrogate (snd (register alice_surrogate (Some empty_db))))
  = Raised (PyException "UnicodeEncodeError" "surrogates not allowed") /\
  PyException "UnicodeEncodeError" "surrogates not allowed"
  <> HTTPException 400 "Email already registered".
Proof.
  assert (H : register alice_surrogate (Some empty_db)
              = (Raised UnicodeEncodeError, Some empty_db))
    by (apply register_unencodable; reflexivity).
  rewrite H. cbn [fst snd]. rewrite H.
  split; [reflexivity|]. split; [reflexivity|]. split; [reflexivity | discriminate].
Qed.

(** C6: whenever [register] succeeds, the store gained exactly one user
    document, whose role is "student" and whose activity flag is true
    whatever the request (a request has a name, an address and a password and
    nothing else), and whose [password_hash] is what [hash_password password]
    returned: 64 hexadecimal characters, so not the password unless the
    password is itself such a text; the password is stored under no field of
    its own. *)
Theorem register_persists_student
        (req : RegisterRequest.t) (w w' : world) (resp : AuthResponse.t) :
  register req w = (Returned resp, w') ->
  exists (db db' : Database) (persisted : document) (stored_hash : string),
    w = Some db /\ w' = Some db' /\
    docs_of db' "user" = docs_of db "user" ++ [persisted] /\
    persisted !! "name" = Some (VStr (RegisterRequest.name req)) /\
    persisted !! "email" = Some (VStr (RegisterRequest.email req)) /\
    persisted !! "role" = Some (VStr "student") /\
    persisted !! "is_active" = Some (VBool true) /\
    hash_password (RegisterRequest.password req) = Returned stored_hash /\
    persisted !! "password_hash" = Some (VStr stored_hash) /\
    persisted !! "password" = None /\
    dom persisted = list_to_set ["_id"; "name"; "email"; "password_hash"; "role"; "is_active"] /\
    (String.length (RegisterRequest.password req) <> 64%nat ->
     persisted !! "password_hash" <> Some (VStr (RegisterRequest.password req))) /\
    AuthResponse.role resp = "student".
Proof.
  intros H.
  destruct (register_returned_inv _ _ _ _ H) as (db & -> & Hup & Hnone & Hpw & ->).
  rewrite (register_fresh _ _ Hup Hnone Hpw) in H. inversion H; subst resp. clear H.
  pose proof (model_dump_fields (new_user req)) as (Hid & Hn & He & Hh & Hr & Ha & Hp).
  exists db, (store "user" (model_dump (new_user req)) db),
         (with_id (model_dump (new_user req)) (next_oid db)),
         (fingerprint (RegisterRequest.password req)).
  split; [reflexivity|]. split; [reflexivity|].
  split; [apply docs_of_store|].
  rewrite !with_id_lookup by discriminate.
  do 4 (split; [assumption|]).
  split; [now apply hash_password_encodable|].
  do 2 (split; [assumption|]).
  split; [|split; [|reflexivity]].
  - rewrite (with_id_fresh _ _ Hid). unfold model_dump, dict. cbn [list_to_map foldr].
    rewrite !dom_insert_L, dom_empty_L. cbn [list_to_set foldr]. set_solver.
  - intros Hlen Heq. rewrite Hh in Heq. inversion Heq as [Hpw'].
    apply Hlen. rewrite <- Hpw' at 1. apply fingerprint_length.
Qed.

Lemma register_persists_student_witness :
  register alice (Some empty_db) = (Returned alice_response, after_alice) /\
  exists (db db' : Database) (persisted : document) (stored_hash : string),
    Some empty_db = Some db /\ after_alice = Some db' /\
    docs_of db' "user" = docs_of db "user" ++ [persisted] /\
    persisted !! "name" = Some (VStr (RegisterRequest.name alice)) /\
    persisted !! "email" = Some (VStr (RegisterRequest.email alice)) /\
    persisted !! "role" = Some (VStr "student") /\
    persisted !! "is_active" = Some (VBool true) /\
    hash_password (RegisterRequest.password alice) = Returned stored_hash /\
    persisted !! "password_hash" = Some (VStr stored_hash) /\
    persisted !! "password" = None /\
    dom persisted = list_to_set ["_id"; "name"; "email"; "password_hash"; "role"; "is_active"] /\
    (String.length (RegisterRequest.password alice) <> 64%nat ->
     persisted !! "password_hash" <> Some (VStr (RegisterRequest.password alice))) /\
    AuthResponse.role alice_response = "student".
Proof.
  assert (H : register alice (Some empty_db) = (Returned alice_response, after_alice))
    by (vm_compute; reflexivity).
  split; [exact H|].
  exact (register_persists_student alice (Some empty_db) after_alice alice_response H).
Defined.

Lemma validate_outcome (name email role : value) (token : string) (w : world) :
  (exists resp, AuthResponse.validate name email role token w = (Returned resp, w)) \/
  AuthResponse.validate name email role token w
  = (Raised (PyException "ValidationError" "validation error for AuthResponse"), w).
Proof.
  unfold AuthResponse.validate.
  destruct name, email, role; try (right; reflexivity).
  left. eexists. reflexivity.
Qed.

Lemma is_str_inv (v : value) : is_str v = true -> exists s, v = VStr s.
Proof. destruct v; try discriminate. eauto. Qed.

(** On a found document whose name and role are strings, building the
    response does not fail. *)
Lemma validate_response_ready (found : document) (e token : string) (w : world) :
  response_ready found = true ->
  found !! "email" = Some (VStr e) ->
  exists resp,
    AuthResponse.validate (dict_get found "name") (dict_get found "email")
                          (dict_get_or found "role" (VStr "student")) token w
    = (Returned resp, w).
Proof.
  unfold response_ready. intros H He.
  apply andb_prop in H. destruct H as [Hn Hr].
  destruct (is_str_inv _ Hn) as [n ->]. destruct (is_str_inv _ Hr) as [r ->].
  unfold dict_get. rewrite He. eexists. reflexivity.
Qed.

Lemma login_unavailable_iff (req : LoginRequest.t) (w : world) :
  fst (login req w) = Raised Unavailable <-> w = None.
Proof.
  split; [|intros ->; reflexivity].
  destruct w as [db|]; [|reflexivity]. intros H. exfalso.
  destruct (outage db) as [msg|] eqn:Hup.
  { rewrite (login_down _ _ _ Hup) in H. discriminate. }
  destruct (stored_user db (LoginRequest.email req)) as [found|] eqn:Hd.
  2: { rewrite (login_unknown _ _ Hup Hd) in H. discriminate. }
  destruct (has_surrogate (LoginRequest.password req)) eqn:Hpw.
  { rewrite (login_unencodable _ _ _ Hup Hd Hpw) in H. discriminate. }
  rewrite (login_known _ _ _ Hup Hd Hpw) in H.
  destruct (bool_decide _); [|discriminate].
  match type of H with context [AuthResponse.validate ?n ?e ?r ?t ?w] =>
    destruct (validate_outcome n e r t w) as [[resp Hv]|Hv]; rewrite Hv in H end;
    discriminate.
Qed.

Lemma register_unavailable_iff (req : RegisterRequest.t) (w : world) :
  fst (register req w) = Raised Unavailable <-> w = None.
Proof.
  split; [|intros ->; reflexivity].
  destruct w as [db|]; [|reflexivity]. intros H. exfalso.
  destruct (outage db) as [msg|] eqn:Hup.
  { rewrite (register_down _ _ _ Hup) in H. discriminate. }
  destruct (stored_user db (RegisterRequest.email req)) as [found|] eqn:Hd.
  { rewrite register_taken in H by (rewrite ?Hd; eauto). discriminate. }
  destruct (has_surrogate (RegisterRequest.password req)) eqn:Hpw.
  - rewrite (register_unencodable _ _ Hup Hd Hpw) in H. discriminate.
  - rewrite (register_fresh _ _ Hup Hd Hpw) in H. discriminate.
Qed.

(** C3, as the code has it: [login] checks the handle as [register] does,
    and either raises status 500 "Database not available" exactly when [db]
    is [None].  On an available store, for a password that can be encoded
    (it holds no lone surrogate), and when the user document that [find_one]
    returns for the address, if any, holds a string under "name" and a
    string or nothing under "role", the only failure of [login] is status
    401 "Invalid credentials", raised exactly when [find_one] finds no user
    with the address or the stored [password_hash] is not what
    [hash_password password] returns; [login] leaves the store as it was. *)
Theorem login_failure_modes (db : Database) (req : LoginRequest.t) :
  outage db = None ->
  has_surrogate (LoginRequest.password req) = false ->
  match stored_user db (LoginRequest.email req) with
  | Some found => response_ready found
  | None => true
  end = true ->
  (forall w, fst (login req w) = Raised (HTTPException 500 "Database not available")
             <-> w = None) /\
  (forall rreq w, fst (register rreq w) = Raised (HTTPException 500 "Database not available")
                  <-> w = None) /\
  (forall e, fst (login req (Some db)) = Raised e ->
             e = HTTPException 401 "Invalid credentials") /\
  (fst (login req (Some db)) = Raised (HTTPException 401 "Invalid credentials") <->
   stored_user db (LoginRequest.email req) = None \/
   exists found given_hash,
     stored_user db (LoginRequest.email req) = Some found /\
     hash_password (LoginRequest.password req) = Returned given_hash /\
     dict_get found "password_hash" <> VStr given_hash) /\
  snd (login req (Some db)) = Some db.
Proof.
  intros Hup Hpw Hready.
  split; [intros w; apply login_unavailable_iff|].
  split; [intros rreq w; apply register_unavailable_iff|].
  destruct (stored_user db (LoginRequest.email req)) as [found|] eqn:Hd.
  2: { rewrite (login_unknown _ _ Hup Hd). cbn [fst snd].
       split; [intros e He; now inversion He|].
       split; [|reflexivity]. split; [now left | reflexivity]. }
  rewrite (login_known _ _ _ Hup Hd Hpw).
  destruct (stored_user_Some _ _ _ Hd) as [_ Hemail].
  destruct (validate_response_ready found _
              (fingerprint (LoginRequest.email req +:+ "|" +:+ LoginRequest.password req))
              (Some db) Hready Hemail) as [resp Hresp].
  destruct (bool_decide _) eqn:Hb.
  - apply bool_decide_eq_true in Hb. rewrite Hresp. cbn [fst snd].
    split; [intros e He; discriminate|].
    split; [|reflexivity]. split; [discriminate|].
    intros [Habs|(found' & h & Hf & Hh & Hne)]; [discriminate|].
    inversion Hf; subst found'.
    apply hash_password_returned in Hh. destruct Hh as [_ ->]. contradiction.
  - apply bool_decide_eq_false in Hb. cbn [fst snd].
    split; [intros e He; now inversion He|].
    split; [|reflexivity]. split; [|reflexivity].
    intros _. right. exists found, (fingerprint (LoginRequest.password req)).
    split; [reflexivity|]. split; [now apply hash_password_encodable | exact Hb].
Qed.

Lemma login_failure_modes_witness :
  outage alice_db = None /\
  has_surrogate (LoginRequest.password alice_wrong) = false /\
  match stored_user alice_db (LoginRequest.email alice_wrong) with
  | Some found => response_ready found
  | None => true
  end = true /\
  fst (login alice_wrong (Some alice_db)) = Raised (HTTPException 401 "Invalid credentials") /\
  fst (login alice_wrong None) = Raised (HTTPException 500 "Database not available").
Proof.
  assert (Hup : outage alice_db = None) by reflexivity.
  assert (Hpw : has_surrogate (LoginRequest.password alice_wrong) = false) by reflexivity.
  assert (Hready : match stored_user alice_db (LoginRequest.email alice_wrong) with
                   | Some found => response_ready found
                   | None => true
                   end = true) by reflexivity.
  destruct (login_failure_modes alice_db alice_wrong Hup Hpw Hready)
    as (Hnone & _ & _ & Hiff & _).
  split; [exact Hup|]. split; [exact Hpw|]. split; [exact Hready|]. split.
  - apply Hiff. right.
    exists (with_id (model_dump (new_user alice)) 0%N), (fingerprint "wrong").
    split; [reflexivity|]. split; [reflexivity|].
    vm_compute. intros H. discriminate H.
  - apply Hnone. reflexivity.
Defined.

(** C3, as the specification words it, fails: a [login] without a database
    handle fails with status 500, not 401. *)
Lemma login_without_handle_is_unavailable :
  login bob_login None = (Raised (HTTPException 500 "Database not available"), None) /\
  HTTPException 500 "Database not available" <> HTTPException 401 "Invalid credentials".
Proof. split; [reflexivity | discriminate]. Qed.

(** C9: [login] does not read [is_active].  For every stored [User],
    whatever its activity flag, whose [password_hash] is what
    [hash_password password] returns, [login] succeeds with the user's name,
    address and role; so it does for a deactivated account. *)
Theorem login_ignores_is_active
        (db : Database) (u : User.t) (oid : N) (password : string) :
  outage db = None ->
  stored_user db (User.email u) = Some (<["_id" := VOid oid]> (model_dump u)) ->
  hash_password password = Returned (User.password_hash u) ->
  exists token,
    hash_password (User.email u +:+ "|" +:+ password) = Returned token /\
    login {| LoginRequest.email := User.email u; LoginRequest.password := password |}
          (Some db)
    = (Returned {| AuthResponse.name := User.name u;
                   AuthResponse.email := User.email u;
                   AuthResponse.role := role_str (User.role u);
                   AuthResponse.token := token |},
       Some db).
Proof.
  intros Hup Hfound Hhash.
  apply hash_password_returned in Hhash. destruct Hhash as [Hpw Hhash].
  pose proof (model_dump_fields u) as (_ & Hn & _ & Hh & Hr & _).
  exists (fingerprint (User.email u +:+ "|" +:+ password)).
  split; [apply hash_password_encodable; now rewrite token_text_encodable|].
  apply (login_accepts db {| LoginRequest.email := User.email u;
                             LoginRequest.password := password |}
                       _ _ _ Hup Hfound Hpw);
    rewrite lookup_insert_ne by discriminate; cbn [LoginRequest.password];
    [rewrite <- Hhash|..]; assumption.
Qed.

Lemma login_ignores_is_active_witness :
  User.is_active dormant = false /\
  outage dormant_db = None /\
  stored_user dormant_db (User.email dormant)
  = Some (<["_id" := VOid 1%N]> (model_dump dormant)) /\
  hash_password "pw3" = Returned (User.password_hash dormant) /\
  exists token,
    hash_password (User.email dormant +:+ "|" +:+ "pw3") = Returned token /\
    login {| LoginRequest.email := User.email dormant; LoginRequest.password := "pw3" |}
          (Some dormant_db)
    = (Returned {| AuthResponse.name := User.name dormant;
                   AuthResponse.email := User.email dormant;
                   AuthResponse.role := role_str (User.role dormant);
                   AuthResponse.token := token |},
       Some dormant_db).
Proof.
  assert (Hfound : stored_user dormant_db (User.email dormant)
                   = Some (<["_id" := VOid 1%N]> (model_dump dormant)))
    by reflexivity.
  assert (Hhash : hash_password "pw3" = Returned (User.password_hash dormant))
    by reflexivity.
  split; [reflexivity|]. split; [reflexivity|]. split; [exact Hfound|].
  split; [exact Hhash|].
  exact (login_ignores_is_active dormant_db dormant 1%N "pw3" eq_refl Hfound Hhash).
Defined.




(** ** Seeding *)

Lemma matches_all (d : document) : matches [] d = true.
Proof. reflexivity. Qed.

Lemma filter_all (l : list document) : List.filter (matches []) l = l.
Proof.
  induction l as [|d l IH]; [reflexivity|].
  cbn [List.filter]. now rewrite matches_all, IH.
Qed.

(** One turn of the loop of [ensure_default_users]. *)
Lemma ensure_user_step (u : document) (e : string) (db : Database) :
  outage db = None ->
  u !! "email" = Some (VStr e) ->
  (email <- subscript u "email" ;;
   found <- find_one "user" [("email", email)] ;;
   if negb (truthy found) then insert_one "user" u else ret tt) (Some db)
  = (Returned tt, Some (ensure_user u e db)).
Proof.
  intros Hup He. unfold subscript. rewrite He.
  rewrite (bind_returned _ _ _ (Some db) (VStr e) eq_refl).
  rewrite (bind_returned _ _ _ _ _ (find_one_up _ _ _ Hup)).
  fold (stored_user db e). rewrite truthy_stored_user. unfold ensure_user.
  destruct (stored_user db e) as [d|].
  - rewrite bool_decide_eq_true_2 by eauto. reflexivity.
  - rewrite bool_decide_eq_false_2 by (intros [? ?]; discriminate).
    cbn [negb]. now apply insert_one_up.
Qed.

Lemma ensure_user_outage (u : document) (e : string) (db : Database) :
  outage (ensure_user u e db) = outage db.
Proof. unfold ensure_user. now destruct (stored_user db e). Qed.

(** Both fixed passwords can be encoded. *)
Lemma default_passwords_hash :
  hash_password "admin123" = Returned (fingerprint "admin123") /\
  hash_password "faculty123" = Returned (fingerprint "faculty123").
Proof. split; reflexivity. Qed.

(** With a handle, [ensure_default_users] is its loop over [default_users]. *)
Lemma ensure_default_users_loop (db : Database) :
  ensure_default_users (Some db)
  = for_each default_users (fun u =>
      email <- subscript u "email" ;;
      found <- find_one "user" [("email", email)] ;;
      if negb (truthy found) then insert_one "user" u else ret tt) (Some db).
Proof.
  unfold ensure_default_users.
  rewrite (bind_returned _ _ _ _ _ (db_is_None_handle db)). cbv beta iota.
  rewrite (proj1 default_passwords_hash), (proj2 default_passwords_hash).
  rewrite (bind_returned _ _ _ _ _ (call_run _ _)).
  rewrite (bind_returned _ _ _ _ _ (call_run _ _)).
  reflexivity.
Qed.

Lemma ensure_default_users_up (db : Database) :
  outage db = None ->
  ensure_default_users (Some db)
  = (Returned tt,
     Some (ensure_user faculty_account "faculty@elearning.com"
             (ensure_user admin_account "admin@elearning.com" db))).
Proof.
  intros Hup. rewrite ensure_default_users_loop.
  unfold default_users. cbn [for_each].
  rewrite (bind_returned _ _ _ _ _
             (ensure_user_step admin_account "admin@elearning.com" db Hup eq_refl)).
  assert (Hup' : outage (ensure_user admin_account "admin@elearning.com" db) = None)
    by now rewrite ensure_user_outage.
  rewrite (bind_returned _ _ _ _ _
             (ensure_user_step faculty_account "faculty@elearning.com" _ Hup' eq_refl)).
  reflexivity.
Qed.

Lemma seed_samples_up (db : Database) :
  outage db = None ->
  seed_samples (Some db) = (Returned tt, Some (ensure_courses db)).
Proof.
  intros Hup. unfold seed_samples.
  rewrite (bind_returned _ _ _ _ _ (db_is_None_handle db)). cbv beta iota.
  rewrite (bind_returned _ _ _ _ _ (count_documents_up _ _ _ Hup)).
  rewrite filter_all. unfold ensure_courses.
  destruct (docs_of db "course") as [|d l]; cbn [length Nat.eqb].
  - now apply insert_many_up.
  - reflexivity.
Qed.

(** What a start does to the world, case by case. *)
Lemma startup_event_no_handle : startup_event None = (Returned tt, None).
Proof. reflexivity. Qed.

Lemma startup_event_down (db : Database) (msg : string) :
  outage db = Some msg -> startup_event (Some db) = (Returned tt, Some db).
Proof.
  intros Hdown. unfold startup_event, try_except.
  assert (H : ensure_default_users (Some db)
              = (Raised (PyException "ServerSelectionTimeoutError" msg), Some db)).
  { rewrite ensure_default_users_loop.
    unfold default_users. cbn [for_each]. apply bind_raised.
    unfold subscript.
    replace (admin_account !! "email") with (Some (VStr "admin@elearning.com"))
      by reflexivity.
    rewrite (bind_returned _ _ _ (Some db) (VStr "admin@elearning.com") eq_refl).
    apply bind_raised. unfold find_one. now apply driver_call_down. }
  rewrite (bind_raised _ _ _ _ _ H). reflexivity.
Qed.

Lemma startup_event_up (db : Database) :
  outage db = None -> startup_event (Some db) = (Returned tt, Some (seeded_db db)).
Proof.
  intros Hup. unfold startup_event, try_except.
  rewrite (bind_returned _ _ _ _ _ (ensure_default_users_up db Hup)).
  rewrite seed_samples_up by now rewrite !ensure_user_outage.
  reflexivity.
Qed.

Lemma stored_user_store_course (d : document) (db : Database) (e : string) :
  stored_user (store "course" d db) e = stored_user db e.
Proof. unfold stored_user. now rewrite docs_of_store_other by discriminate. Qed.

Lemma stored_user_store_user (d : document) (db : Database) (e : string) :
  is_Some (stored_user db e) -> is_Some (stored_user (store "user" d db) e).
Proof.
  intros [x Hx]. unfold stored_user. rewrite docs_of_store.
  rewrite (find_app_l _ _ _ _ Hx). eauto.
Qed.

Lemma stored_user_ensure_user (u : document) (e e' : string) (db : Database) :
  is_Some (stored_user db e) -> is_Some (stored_user (ensure_user u e' db) e).
Proof.
  intros H. unfold ensure_user. destruct (stored_user db e'); [exact H|].
  now apply stored_user_store_user.
Qed.

Lemma ensure_user_stored (u : document) (e : string) (db : Database) :
  u !! "email" = Some (VStr e) ->
  is_Some (stored_user (ensure_user u e db) e).
Proof.
  intros He. unfold ensure_user.
  destruct (stored_user db e) as [d|] eqn:Hd; [rewrite Hd; eauto|].
  unfold stored_user in *. rewrite docs_of_store, (find_app_r _ _ _ Hd).
  cbn [List.find].
  assert (Hm : matches [("email", VStr e)] (with_id u (next_oid db)) = true).
  { apply matches_email. now rewrite with_id_lookup by discriminate. }
  rewrite Hm. eauto.
Qed.

Lemma ensure_user_id (u : document) (e : string) (db : Database) :
  is_Some (stored_user db e) -> ensure_user u e db = db.
Proof. intros [d Hd]. unfold ensure_user. now rewrite Hd. Qed.

Lemma stored_user_ensure_courses (db : Database) (e : string) :
  stored_user (ensure_courses db) e = stored_user db e.
Proof.
  unfold ensure_courses. destruct (docs_of db "course"); [|reflexivity].
  unfold sample_courses. cbn [fold_left].
  now rewrite !stored_user_store_course.
Qed.

Lemma ensure_courses_nonempty (db : Database) :
  docs_of (ensure_courses db) "course" <> [].
Proof.
  unfold ensure_courses. destruct (docs_of db "course") as [|d l] eqn:Hd.
  - unfold sample_courses. cbn [fold_left]. rewrite docs_of_store.
    intros H. apply app_eq_nil in H. destruct H as [_ H]. discriminate.
  - rewrite Hd. discriminate.
Qed.

Lemma ensure_courses_id (db : Database) :
  docs_of db "course" <> [] -> ensure_courses db = db.
Proof.
  intros H. unfold ensure_courses. destruct (docs_of db "course"); [contradiction|reflexivity].
Qed.

Lemma ensure_courses_outage (db : Database) : outage (ensure_courses db) = outage db.
Proof.
  unfold ensure_courses. destruct (docs_of db "course"); reflexivity.
Qed.

(** Seeding a seeded store changes nothing. *)
Lemma seeded_db_idempotent (db : Database) : seeded_db (seeded_db db) = seeded_db db.
Proof.
  unfold seeded_db at 1.
  assert (Ha : is_Some (stored_user (seeded_db db) "admin@elearning.com")).
  { unfold seeded_db. rewrite stored_user_ensure_courses.
    apply stored_user_ensure_user. now apply ensure_user_stored. }
  assert (Hf : is_Some (stored_user (seeded_db db) "faculty@elearning.com")).
  { unfold seeded_db. rewrite stored_user_ensure_courses.
    now apply ensure_user_stored. }
  rewrite (ensure_user_id _ _ _ Ha), (ensure_user_id _ _ _ Hf).
  apply ensure_courses_id. unfold seeded_db. apply ensure_courses_nonempty.
Qed.

Lemma startup_event_idempotent (w : world) :
  startup_event (snd (startup_event w)) = (Returned tt, snd (startup_event w)).
Proof.
  destruct w as [db|]; [|reflexivity].
  destruct (outage db) as [msg|] eqn:Hup.
  - rewrite (startup_event_down _ _ Hup). cbn [snd]. apply (startup_event_down _ _ Hup).
  - rewrite (startup_event_up _ Hup). cbn [snd].
    rewrite startup_event_up, seeded_db_idempotent; [reflexivity|].
    unfold seeded_db. now rewrite ensure_courses_outage, !ensure_user_outage.
Qed.

(** C5: a start on a reachable store leaves the store [seeded_db db], in
    which each baseline account was stored only if [find_one] found no user
    with its address and the sample courses only if the course collection
    was empty; a second start changes nothing, on any world.  From the empty
    store, two starts leave exactly two users, admin@elearning.com with
    role admin and faculty@elearning.com with role faculty, and exactly the
    four sample courses. *)
Theorem seeding_idempotent (db : Database) :
  outage db = None ->
  startup_event (Some db) = (Returned tt, Some (seeded_db db)) /\
  startup_event (Some (seeded_db db)) = (Returned tt, Some (seeded_db db)) /\
  (forall w, startup_event (snd (startup_event w)) = (Returned tt, snd (startup_event w))) /\
  exists twice : Database,
    snd (startup_event (snd (startup_event (Some empty_db)))) = Some twice /\
    length (docs_of twice "user") = 2%nat /\
    map (fun d => (d !! "email", d !! "role")) (docs_of twice "user")
    = [ (Some (VStr "admin@elearning.com"), Some (VStr "admin"));
        (Some (VStr "faculty@elearning.com"), Some (VStr "faculty")) ] /\
    map (delete "_id") (docs_of twice "user") = default_users /\
    length (docs_of twice "course") = 4%nat /\
    map (delete "_id") (docs_of twice "course") = sample_courses.
Proof.
  intros Hup.
  split; [apply (startup_event_up _ Hup)|].
  split.
  { rewrite startup_event_up, seeded_db_idempotent; [reflexivity|].
    unfold seeded_db. now rewrite ensure_courses_outage, !ensure_user_outage. }
  split; [apply startup_event_idempotent|].
  exists (seeded_db empty_db).
  split.
  { rewrite (startup_event_idempotent (Some empty_db)).
    now rewrite (startup_event_up empty_db eq_refl). }
  repeat split; reflexivity.
Qed.

Lemma seeding_idempotent_witness :
  outage empty_db = None /\
  startup_event (Some empty_db) = (Returned tt, Some (seeded_db empty_db)) /\
  startup_event (Some (seeded_db empty_db)) = (Returned tt, Some (seeded_db empty_db)) /\
  length (docs_of (seeded_db empty_db) "user") = 2%nat /\
  length (docs_of (seeded_db empty_db) "course") = 4%nat.
Proof.
  destruct (seeding_idempotent empty_db eq_refl) as (H1 & H2 & _).
  split; [reflexivity|]. split; [exact H1|]. split; [exact H2|].
  split; reflexivity.
Defined.

(** ** Course listing *)

Lemma get_documents_up (coll : string) (db : Database) :
  outage db = None ->
  get_documents coll (Some db) = (Returned (docs_of db coll), Some db).
Proof. intros Hup. unfold get_documents. now rewrite find_up, filter_all. Qed.

Lemma list_courses_up (db : Database) :
  outage db = None ->
  list_courses (Some db)
  = (Returned {| CoursesResponse.items := map expose_id (docs_of db "course");
                 CoursesResponse.error := None |},
     Some db).
Proof.
  intros Hup. unfold list_courses.
  apply try_except_returned.
  now rewrite (bind_returned _ _ _ _ _ (get_documents_up _ _ Hup)).
Qed.

Lemma list_courses_raised (w w' : world) (e : exn) :
  get_documents "course" w = (Raised e, w') ->
  list_courses w
  = (Returned {| CoursesResponse.items := []; CoursesResponse.error := Some (exn_str e) |},
     w').
Proof.
  intros H. unfold list_courses.
  now rewrite (try_except_raised _ _ _ _ _ (bind_raised _ _ _ _ _ H)).
Qed.

Lemma list_courses_returns (w : world) :
  exists resp, list_courses w = (Returned resp, w).
Proof.
  destruct w as [db|].
  - destruct (outage db) as [msg|] eqn:Hup.
    + eexists. apply list_courses_raised. unfold get_documents, find.
      apply (driver_call_down _ _ _ Hup).
    + eexists. now apply list_courses_up.
  - eexists. apply list_courses_raised. reflexivity.
Qed.

(** C7: whenever reading the course collection raises, whatever the
    exception, [list_courses] returns the response with no items and the
    text of the exception as "error"; and on every world it returns a
    response, it never raises. *)
Theorem list_courses_masks_failures (w w' : world) (e : exn) :
  get_documents "course" w = (Raised e, w') ->
  list_courses w
  = (Returned {| CoursesResponse.items := []; CoursesResponse.error := Some (exn_str e) |},
     w') /\
  (forall w0, exists resp, list_courses w0 = (Returned resp, w0)).
Proof.
  intros H. split; [now apply list_courses_raised | apply list_courses_returns].
Qed.

Lemma list_courses_masks_failures_witness :
  get_documents "course" (Some unreachable_db)
  = (Raised (PyException "ServerSelectionTimeoutError" "No servers found yet"),
     Some unreachable_db) /\
  list_courses (Some unreachable_db)
  = (Returned {| CoursesResponse.items := [];
                 CoursesResponse.error := Some "No servers found yet" |},
     Some unreachable_db).
Proof.
  assert (H : get_documents "course" (Some unreachable_db)
              = (Raised (PyException "ServerSelectionTimeoutError" "No servers found yet"),
                 Some unreachable_db)) by reflexivity.
  split; [exact H|].
  exact (proj1 (list_courses_masks_failures _ _ _ H)).
Defined.

Lemma expose_id_no_native (d : document) : expose_id d !! "_id" = None.
Proof.
  unfold expose_id. destruct (d !! "_id") as [oid|] eqn:H; [|exact H].
  rewrite lookup_insert_ne by discriminate. apply lookup_delete_eq.
Qed.

Lemma expose_id_id (d : document) (oid : value) :
  d !! "_id" = Some oid -> expose_id d !! "id" = Some (VStr (py_str oid)).
Proof. intros H. unfold expose_id. rewrite H. apply lookup_insert_eq. Qed.

Lemma expose_id_other (d : document) (k : string) :
  k <> "id" -> k <> "_id" -> expose_id d !! k = d !! k.
Proof.
  intros H1 H2. unfold expose_id. destruct (d !! "_id"); [|reflexivity].
  rewrite lookup_insert_ne by congruence. now rewrite lookup_delete_ne by congruence.
Qed.

(** C8: on a reachable store whose course documents carry the driver's
    [_id], the listing returns one item per document, in order; each item
    has under "id" the text of the document's [_id], nothing under "_id",
    and the document's other fields.  On the freshly seeded store the items
    are four, their "id" fields are four different 24-digit texts, and none
    has an "_id". *)
Theorem list_courses_exposes_ids (db : Database) :
  outage db = None ->
  forallb has_id (docs_of db "course") = true ->
  (exists items : list document,
     list_courses (Some db)
     = (Returned {| CoursesResponse.items := items; CoursesResponse.error := None |},
        Some db) /\
     Forall2 (fun d it =>
                it !! "_id" = None /\
                (exists oid, d !! "_id" = Some oid /\ it !! "id" = Some (VStr (py_str oid))) /\
                (forall k, k <> "id" -> k <> "_id" -> it !! k = d !! k))
             (docs_of db "course") items) /\
  (exists items : list document,
     fst (list_courses fresh_seeded)
     = Returned {| CoursesResponse.items := items; CoursesResponse.error := None |} /\
     length items = 4%nat /\
     map (fun it => it !! "id") items
     = [ Some (VStr "000000000000000000000002"); Some (VStr "000000000000000000000003");
         Some (VStr "000000000000000000000004"); Some (VStr "000000000000000000000005") ] /\
     NoDup (map (fun it => it !! "id") items) /\
     map (fun it => it !! "_id") items = [None; None; None; None]).
Proof.
  intros Hup Hids. split.
  - eexists. split; [now apply list_courses_up|].
    induction (docs_of db "course") as [|d l IH]; cbn [map]; constructor.
    + cbn [forallb] in Hids. apply andb_prop in Hids. destruct Hids as [Hd _].
      apply bool_decide_eq_true in Hd. destruct Hd as [oid Hoid].
      split; [apply expose_id_no_native|].
      split; [exists oid; split; [exact Hoid | now apply expose_id_id]|].
      intros k. apply expose_id_other.
    + apply IH. cbn [forallb] in Hids. apply andb_prop in Hids. tauto.
  - exists (map expose_id (docs_of (seeded_db empty_db) "course")).
    split.
    { unfold fresh_seeded. rewrite (startup_event_up empty_db eq_refl). cbn [snd].
      rewrite list_courses_up; [reflexivity|].
      unfold seeded_db. now rewrite ensure_courses_outage, !ensure_user_outage. }
    split; [reflexivity|]. split; [reflexivity|]. split; [|reflexivity].
    replace (map (fun it : document => it !! "id")
                 (map expose_id (docs_of (seeded_db empty_db) "course")))
      with [ Some (VStr "000000000000000000000002"); Some (VStr "000000000000000000000003");
             Some (VStr "000000000000000000000004"); Some (VStr "000000000000000000000005") ]
      by reflexivity.
    apply (bool_decide_unpack _). vm_compute. exact I.
Qed.

Lemma list_courses_exposes_ids_witness :
  outage (seeded_db empty_db) = None /\
  forallb has_id (docs_of (seeded_db empty_db) "course") = true /\
  exists items : list document,
    list_courses (Some (seeded_db empty_db))
    = (Returned {| CoursesResponse.items := items; CoursesResponse.error := None |},
       Some (seeded_db empty_db)) /\
    Forall2 (fun d it =>
               it !! "_id" = None /\
               (exists oid, d !! "_id" = Some oid /\ it !! "id" = Some (VStr (py_str oid))) /\
               (forall k, k <> "id" -> k <> "_id" -> it !! k = d !! k))
            (docs_of (seeded_db empty_db) "course") items.
Proof.
  split; [reflexivity|]. split; [reflexivity|].
  exact (proj1 (list_courses_exposes_ids (seeded_db empty_db) eq_refl eq_refl)).
Defined.

(** ** Invariants of the store

    The hypotheses of the theorems on [login] and on the listing hold on
    every store that the handlers and the seeding build from the empty one:
    the driver gives every stored document an [_id], and the user documents
    that [register] and the seeding store hold what [login] reads. *)

Lemma store_keeps_ids (coll coll' : string) (d : document) (db : Database) :
  forallb has_id (docs_of db coll') = true ->
  forallb has_id (docs_of (store coll d db) coll') = true.
Proof.
  intros H. destruct (decide (coll = coll')) as [->|Hne].
  - rewrite docs_of_store, forallb_app, H. cbn [forallb].
    unfold has_id. rewrite bool_decide_eq_true_2 by apply with_id_has_id.
    reflexivity.
  - now rewrite docs_of_store_other.
Qed.

Lemma new_user_response_ready (req : RegisterRequest.t) (oid : N) :
  response_ready (with_id (model_dump (new_user req)) oid) = true.
Proof.
  pose proof (model_dump_fields (new_user req)) as (_ & Hn & _ & _ & Hr & _).
  unfold response_ready, dict_get, dict_get_or.
  rewrite !with_id_lookup by discriminate.
  rewrite Hn, Hr. reflexivity.
Qed.

(** X25: [register] stores a document from which [login] can build its
    response: if every user document holds a string under "name" and a
    string or nothing under "role" before a successful call, every one does
    after it. *)
Theorem register_keeps_users_response_ready
        (db db' : Database) (req : RegisterRequest.t) (resp : AuthResponse.t) :
  register req (Some db) = (Returned resp, Some db') ->
  forallb response_ready (docs_of db "user") = true ->
  forallb response_ready (docs_of db' "user") = true.
Proof.
  intros H Hvalid.
  destruct (register_returned_inv _ _ _ _ H) as (db0 & Hdb & _ & _ & _ & Hdb').
  inversion Hdb; subst db0. inversion Hdb'; subst db'.
  rewrite docs_of_store, forallb_app, Hvalid. cbn [forallb].
  now rewrite new_user_response_ready.
Qed.

Example seeded_users_response_ready :
  forallb response_ready (docs_of (seeded_db empty_db) "user") = true.
Proof. reflexivity. Qed.

Example seeded_courses_have_ids :
  forallb has_id (docs_of (seeded_db empty_db) "course") = true.
Proof. reflexivity. Qed.

(** The examples of the specification. *)
Example alice_registers :
  fst (register alice (Some empty_db)) = Returned alice_response.
Proof. vm_compute. reflexivity. Qed.

Example alice_registers_again :
  fst (register alice after_alice)
  = Raised (HTTPException 400 "Email already registered").
Proof. vm_compute. reflexivity. Qed.

Example alice_wrong_password :
  fst (login alice_wrong after_alice) = Raised (HTTPException 401 "Invalid credentials").
Proof. vm_compute. reflexivity. Qed.

(** * Further properties of the code *)

(** ** Seeding: failures, guards and what is left alone *)

(** X1: a start never raises, whatever the world: without a handle both
    seeding functions return at their guard, and any exception of the driver
    is caught by [startup_event]. *)
Theorem startup_event_never_raises :
  (forall w, fst (startup_event w) = Returned tt) /\
  ensure_default_users None = (Returned tt, None) /\
  seed_samples None = (Returned tt, None) /\
  startup_event None = (Returned tt, None).
Proof.
  split; [|repeat split].
  intros [db|]; [|reflexivity].
  destruct (outage db) as [msg|] eqn:Hup.
  - now rewrite (startup_event_down _ _ Hup).
  - now rewrite (startup_event_up _ Hup).
Qed.

Lemma ensure_default_users_down (db : Database) (msg : string) :
  outage db = Some msg ->
  ensure_default_users (Some db)
  = (Raised (PyException "ServerSelectionTimeoutError" msg), Some db).
Proof.
  intros Hdown. rewrite ensure_default_users_loop.
  unfold default_users. cbn [for_each]. apply bind_raised.
  unfold subscript.
  replace (admin_account !! "email") with (Some (VStr "admin@elearning.com"))
    by reflexivity.
  rewrite (bind_returned _ _ _ (Some db) (VStr "admin@elearning.com") eq_refl).
  apply bind_raised. unfold find_one. now apply driver_call_down.
Qed.

Lemma seed_samples_down (db : Database) (msg : string) :
  outage db = Some msg ->
  seed_samples (Some db)
  = (Raised (PyException "ServerSelectionTimeoutError" msg), Some db).
Proof.
  intros Hdown. unfold seed_samples.
  rewrite (bind_returned _ _ _ _ _ (db_is_None_handle db)). cbv beta iota.
  apply bind_raised. unfold count_documents. now apply driver_call_down.
Qed.

(** X2: the guard of the seeding functions is [db is None] only.  With a
    handle whose server does not answer, [ensure_default_users] and
    [seed_samples] themselves raise the driver's error; [startup_event]
    swallows it and leaves the store as it was. *)
Theorem seeding_failure_is_swallowed (db : Database) (msg : string) :
  outage db = Some msg ->
  fst (ensure_default_users (Some db)) = Raised (PyException "ServerSelectionTimeoutError" msg) /\
  fst (seed_samples (Some db)) = Raised (PyException "ServerSelectionTimeoutError" msg) /\
  startup_event (Some db) = (Returned tt, Some db).
Proof.
  intros Hdown.
  rewrite (ensure_default_users_down _ _ Hdown), (seed_samples_down _ _ Hdown).
  split; [reflexivity|]. split; [reflexivity|].
  apply (startup_event_down _ _ Hdown).
Qed.

Lemma seeding_failure_is_swallowed_witness :
  outage unreachable_db = Some "No servers found yet" /\
  fst (ensure_default_users (Some unreachable_db))
  = Raised (PyException "ServerSelectionTimeoutError" "No servers found yet") /\
  fst (seed_samples (Some unreachable_db))
  = Raised (PyException "ServerSelectionTimeoutError" "No servers found yet") /\
  startup_event (Some unreachable_db) = (Returned tt, Some unreachable_db).
Proof.
  split; [reflexivity|].
  exact (seeding_failure_is_swallowed unreachable_db "No servers found yet" eq_refl).
Defined.

(** X3: [seed_samples] looks at the emptiness of the course collection
    only.  As soon as the collection holds a document, whatever it is, the
    samples are not inserted and the store is left as it was. *)
Theorem seed_samples_skips_nonempty (db : Database) :
  outage db = None ->
  docs_of db "course" <> [] ->
  seed_samples (Some db) = (Returned tt, Some db).
Proof.
  intros Hup Hne. rewrite (seed_samples_up _ Hup).
  now rewrite (ensure_courses_id _ Hne).
Qed.

Lemma seed_samples_skips_nonempty_witness :
  outage algebra_db = None /\
  docs_of algebra_db "course" <> [] /\
  seed_samples (Some algebra_db) = (Returned tt, Some algebra_db) /\
  length (docs_of algebra_db "course") = 1%nat.
Proof.
  assert (Hne : docs_of algebra_db "course" <> []).
  { unfold algebra_db. rewrite docs_of_store. intros H.
    apply app_eq_nil in H. destruct H as [_ H]. discriminate H. }
  split; [reflexivity|]. split; [exact Hne|].
  split; [exact (seed_samples_skips_nonempty algebra_db eq_refl Hne) | reflexivity].
Defined.

(** X4: on a reachable store with an empty course collection,
    [seed_samples] stores the four samples and nothing else, in their order,
    each with an identifier of the driver, and touches no other
    collection. *)
Theorem seed_samples_fills_empty (db db' : Database) :
  outage db = None ->
  docs_of db "course" = [] ->
  snd (seed_samples (Some db)) = Some db' ->
  fst (seed_samples (Some db)) = Returned tt /\
  map (delete "_id") (docs_of db' "course") = sample_courses /\
  forallb has_id (docs_of db' "course") = true /\
  (forall coll, coll <> "course" -> docs_of db' coll = docs_of db coll).
Proof.
  intros Hup Hempty Hdb'. rewrite (seed_samples_up _ Hup) in *.
  cbn [fst snd] in *. inversion Hdb'; subst db'. clear Hdb'.
  unfold ensure_courses. rewrite Hempty. unfold sample_courses. cbn [fold_left].
  split; [reflexivity|].
  rewrite !docs_of_store, Hempty.
  split; [reflexivity|]. split; [reflexivity|].
  intros coll Hne. now rewrite !docs_of_store_other by congruence.
Qed.

Lemma seed_samples_fills_empty_witness :
  outage alice_db = None /\
  docs_of alice_db "course" = [] /\
  snd (seed_samples (Some alice_db)) = Some (ensure_courses alice_db) /\
  map (delete "_id") (docs_of (ensure_courses alice_db) "course") = sample_courses /\
  docs_of (ensure_courses alice_db) "user" = docs_of alice_db "user".
Proof.
  assert (H : snd (seed_samples (Some alice_db)) = Some (ensure_courses alice_db))
    by reflexivity.
  destruct (seed_samples_fills_empty alice_db (ensure_courses alice_db) eq_refl eq_refl H)
    as (_ & Hdocs & _ & Hother).
  split; [reflexivity|]. split; [reflexivity|]. split; [exact H|].
  split; [exact Hdocs|]. apply Hother. discriminate.
Defined.

(** ** Logins across seeding and registration *)

Lemma validate_fst (name email role : value) (token : string) (w w' : world) :
  fst (AuthResponse.validate name email role token w)
  = fst (AuthResponse.validate name email role token w').
Proof. unfold AuthResponse.validate. destruct name, email, role; reflexivity. Qed.

Lemma validate_snd (name email role : value) (token : string) (w : world) :
  snd (AuthResponse.validate name email role token w) = w.
Proof. unfold AuthResponse.validate. destruct name, email, role; reflexivity. Qed.

(** On reachable stores, the outcome of [login] is a function of the
    document that [find_one] returns. *)
Lemma login_depends_on_stored_user (db db' : Database) (req : LoginRequest.t) :
  outage db = None -> outage db' = None ->
  stored_user db' (LoginRequest.email req) = stored_user db (LoginRequest.email req) ->
  fst (login req (Some db')) = fst (login req (Some db)).
Proof.
  intros Hup Hup' Hsame.
  destruct (stored_user db (LoginRequest.email req)) as [found|] eqn:Hd.
  - destruct (has_surrogate (LoginRequest.password req)) eqn:Hpw.
    + now rewrite (login_unencodable _ _ _ Hup Hd Hpw),
                  (login_unencodable _ _ _ Hup' Hsame Hpw).
    + rewrite (login_known _ _ _ Hup Hd Hpw), (login_known _ _ _ Hup' Hsame Hpw).
      destruct (bool_decide _); [apply validate_fst | reflexivity].
  - now rewrite (login_unknown _ _ Hup Hd), (login_unknown _ _ Hup' Hsame).
Qed.

Lemma stored_user_ensure_user_Some (u : document) (e e' : string) (db : Database)
      (d : document) :
  stored_user db e = Some d -> stored_user (ensure_user u e' db) e = Some d.
Proof.
  intros H. unfold ensure_user. destruct (stored_user db e'); [exact H|].
  unfold stored_user in *. rewrite docs_of_store. now apply find_app_l.
Qed.

Lemma stored_user_seeded_Some (db : Database) (e : string) (d : document) :
  stored_user db e = Some d -> stored_user (seeded_db db) e = Some d.
Proof.
  intros H. unfold seeded_db. rewrite stored_user_ensure_courses.
  now apply stored_user_ensure_user_Some, stored_user_ensure_user_Some.
Qed.

Lemma seeded_db_outage (db : Database) : outage (seeded_db db) = outage db.
Proof. unfold seeded_db. now rewrite ensure_courses_outage, !ensure_user_outage. Qed.

(** X5: seeding never replaces an account.  For an address that is stored
    before the start, baseline address or not, [login] gives after the start
    what it gave before: a stored administrator address keeps its document,
    its fingerprint and its role. *)
Theorem startup_preserves_logins (db : Database) (req : LoginRequest.t) :
  outage db = None ->
  is_Some (stored_user db (LoginRequest.email req)) ->
  stored_user (seeded_db db) (LoginRequest.email req)
  = stored_user db (LoginRequest.email req) /\
  fst (login req (snd (startup_event (Some db)))) = fst (login req (Some db)).
Proof.
  intros Hup [d Hd].
  assert (Hsame : stored_user (seeded_db db) (LoginRequest.email req)
                  = stored_user db (LoginRequest.email req))
    by (rewrite Hd; now apply stored_user_seeded_Some).
  split; [exact Hsame|].
  rewrite (startup_event_up _ Hup). cbn [snd].
  apply login_depends_on_stored_user; [exact Hup | now rewrite seeded_db_outage | exact Hsame].
Qed.

Lemma startup_preserves_logins_witness :
  outage squatted_db = None /\
  is_Some (stored_user squatted_db (LoginRequest.email admin_login)) /\
  fst (login admin_login (snd (startup_event (Some squatted_db))))
  = fst (login admin_login (Some squatted_db)) /\
  fst (login admin_login (Some squatted_db))
  = Raised (HTTPException 401 "Invalid credentials").
Proof.
  assert (Hsome : is_Some (stored_user squatted_db (LoginRequest.email admin_login)))
    by (eexists; reflexivity).
  split; [reflexivity|]. split; [exact Hsome|].
  split; [exact (proj2 (startup_preserves_logins squatted_db admin_login eq_refl Hsome))|].
  vm_compute. reflexivity.
Defined.

Lemma ensure_user_stores (u : document) (e : string) (db : Database) :
  u !! "email" = Some (VStr e) ->
  stored_user db e = None ->
  stored_user (ensure_user u e db) e = Some (with_id u (next_oid db)).
Proof.
  intros He Hnone. unfold ensure_user. rewrite Hnone.
  unfold stored_user in *. rewrite docs_of_store, (find_app_r _ _ _ Hnone).
  cbn [List.find].
  assert (Hm : matches [("email", VStr e)] (with_id u (next_oid db)) = true).
  { apply matches_email. now rewrite with_id_lookup by discriminate. }
  now rewrite Hm.
Qed.

Lemma stored_user_ensure_user_other (u : document) (e e' : string) (db : Database) :
  u !! "email" = Some (VStr e') -> e <> e' ->
  stored_user (ensure_user u e' db) e = stored_user db e.
Proof.
  intros Hu Hne. unfold ensure_user. destruct (stored_user db e'); [reflexivity|].
  unfold stored_user. rewrite docs_of_store.
  destruct (List.find _ (docs_of db "user")) as [d|] eqn:Hd.
  - now apply find_app_l.
  - rewrite (find_app_r _ _ _ Hd). cbn [List.find].
    destruct (matches _ _) eqn:Hm; [|reflexivity].
    apply matches_email in Hm. rewrite with_id_lookup in Hm by discriminate.
    rewrite Hu in Hm. congruence.
Qed.

(** X6: on a reachable store that holds neither baseline address, a start
    makes both baseline accounts usable: [login] with admin@elearning.com and
    admin123 returns role admin, with faculty@elearning.com and faculty123
    role faculty, each with the token of its credentials. *)
Theorem seeded_accounts_can_login (db : Database) :
  outage db = None ->
  stored_user db "admin@elearning.com" = None ->
  stored_user db "faculty@elearning.com" = None ->
  exists admin_token faculty_token,
    hash_password "admin@elearning.com|admin123" = Returned admin_token /\
    hash_password "faculty@elearning.com|faculty123" = Returned faculty_token /\
    fst (login admin_login (snd (startup_event (Some db))))
    = Returned {| AuthResponse.name := "Admin";
                  AuthResponse.email := "admin@elearning.com";
                  AuthResponse.role := "admin";
                  AuthResponse.token := admin_token |} /\
    fst (login faculty_login (snd (startup_event (Some db))))
    = Returned {| AuthResponse.name := "Faculty";
                  AuthResponse.email := "faculty@elearning.com";
                  AuthResponse.role := "faculty";
                  AuthResponse.token := faculty_token |}.
Proof.
  intros Hup Ha Hf.
  exists (fingerprint "admin@elearning.com|admin123"),
         (fingerprint "faculty@elearning.com|faculty123").
  split; [reflexivity|]. split; [reflexivity|].
  rewrite (startup_event_up _ Hup). cbn [snd].
  assert (Hup' : outage (seeded_db db) = None) by now rewrite seeded_db_outage.
  pose proof (ensure_user_stores admin_account "admin@elearning.com" db eq_refl Ha) as Ha'.
  assert (Hf' : stored_user (ensure_user admin_account "admin@elearning.com" db)
                            "faculty@elearning.com" = None).
  { rewrite stored_user_ensure_user_other; [exact Hf | reflexivity | discriminate]. }
  pose proof (ensure_user_stores faculty_account "faculty@elearning.com" _ eq_refl Hf') as Hf''.
  assert (Hsa : stored_user (seeded_db db) (LoginRequest.email admin_login)
                = Some (with_id admin_account (next_oid db))).
  { unfold seeded_db. rewrite stored_user_ensure_courses.
    apply stored_user_ensure_user_Some. exact Ha'. }
  assert (Hsf : stored_user (seeded_db db) (LoginRequest.email faculty_login)
                = Some (with_id faculty_account
                          (next_oid (ensure_user admin_account "admin@elearning.com" db)))).
  { unfold seeded_db. rewrite stored_user_ensure_courses. exact Hf''. }
  split.
  - apply (f_equal fst (login_accepts (seeded_db db) admin_login _ "Admin" "admin"
                          Hup' Hsa eq_refl
                          ltac:(now rewrite with_id_lookup by discriminate)
                          ltac:(now rewrite with_id_lookup by discriminate)
                          ltac:(now rewrite with_id_lookup by discriminate))).
  - apply (f_equal fst (login_accepts (seeded_db db) faculty_login _ "Faculty" "faculty"
                          Hup' Hsf eq_refl
                          ltac:(now rewrite with_id_lookup by discriminate)
                          ltac:(now rewrite with_id_lookup by discriminate)
                          ltac:(now rewrite with_id_lookup by discriminate))).
Qed.

Lemma seeded_accounts_can_login_witness :
  stored_user alice_db "admin@elearning.com" = None /\
  stored_user alice_db "faculty@elearning.com" = None /\
  exists admin_token faculty_token,
    hash_password "admin@elearning.com|admin123" = Returned admin_token /\
    hash_password "faculty@elearning.com|faculty123" = Returned faculty_token /\
    fst (login admin_login (snd (startup_event (Some alice_db))))
    = Returned {| AuthResponse.name := "Admin";
                  AuthResponse.email := "admin@elearning.com";
                  AuthResponse.role := "admin";
                  AuthResponse.token := admin_token |} /\
    fst (login faculty_login (snd (startup_event (Some alice_db))))
    = Returned {| AuthResponse.name := "Faculty";
                  AuthResponse.email := "faculty@elearning.com";
                  AuthResponse.role := "faculty";
                  AuthResponse.token := faculty_token |}.
Proof.
  split; [reflexivity|]. split; [reflexivity|].
  exact (seeded_accounts_can_login alice_db eq_refl eq_refl eq_refl).
Defined.

(** X7: registering one address does not change what [login] gives for any
    other address. *)
Theorem register_preserves_other_logins
        (db db' : Database) (req : RegisterRequest.t) (resp : AuthResponse.t)
        (other : LoginRequest.t) :
  register req (Some db) = (Returned resp, Some db') ->
  address (LoginRequest.email other) <> address (RegisterRequest.email req) ->
  stored_user db' (LoginRequest.email other) = stored_user db (LoginRequest.email other) /\
  fst (login other (Some db')) = fst (login other (Some db)).
Proof.
  intros H Hne.
  destruct (register_returned_inv _ _ _ _ H) as (db0 & Hdb & Hup & Hnone & _ & Hdb').
  inversion Hdb; subst db0. inversion Hdb'; subst db'. clear Hdb Hdb'.
  assert (Hsame : stored_user (store "user" (model_dump (new_user req)) db)
                              (LoginRequest.email other)
                  = stored_user db (LoginRequest.email other)).
  { unfold stored_user. rewrite docs_of_store.
    destruct (List.find _ (docs_of db "user")) as [d|] eqn:Hd.
    - now apply find_app_l.
    - rewrite (find_app_r _ _ _ Hd). cbn [List.find].
      destruct (matches _ _) eqn:Hm; [|reflexivity].
      apply matches_email in Hm. rewrite with_id_lookup in Hm by discriminate.
      pose proof (model_dump_fields (new_user req)) as (_ & _ & He & _).
      rewrite He in Hm. cbn [User.email new_user] in Hm. congruence. }
  split; [exact Hsame|].
  apply login_depends_on_stored_user; [exact Hup | exact Hup | exact Hsame].
Qed.

Lemma register_preserves_other_logins_witness :
  register alice_again (Some squatted_db)
  = (Returned {| AuthResponse.name := "Alice B"; AuthResponse.email := "alice@x.com";
                 AuthResponse.role := "student";
                 AuthResponse.token := fingerprint "alice@x.com|another" |},
     Some (store "user" (model_dump (new_user alice_again)) squatted_db)) /\
  address (LoginRequest.email admin_login) <> address (RegisterRequest.email alice_again) /\
  fst (login admin_login (Some (store "user" (model_dump (new_user alice_again)) squatted_db)))
  = fst (login admin_login (Some squatted_db)).
Proof.
  assert (H : register alice_again (Some squatted_db)
              = (Returned {| AuthResponse.name := "Alice B";
                             AuthResponse.email := "alice@x.com";
                             AuthResponse.role := "student";
                             AuthResponse.token := fingerprint "alice@x.com|another" |},
                 Some (store "user" (model_dump (new_user alice_again)) squatted_db)))
    by (apply register_fresh; reflexivity).
  assert (Hne : address (LoginRequest.email admin_login)
                <> address (RegisterRequest.email alice_again))
    by discriminate.
  split; [exact H|]. split; [exact Hne|].
  exact (proj2 (register_preserves_other_logins _ _ _ _ admin_login H Hne)).
Defined.

(** X8: [login] has no side effect: whatever the request, the world and the
    outcome, the store after the call is the store before it. *)
Theorem login_read_only (req : LoginRequest.t) (w : world) :
  snd (login req w) = w.
Proof.
  destruct w as [db|]; [|reflexivity].
  destruct (outage db) as [msg|] eqn:Hup.
  { now rewrite (login_down _ _ _ Hup). }
  destruct (stored_user db (LoginRequest.email req)) as [found|] eqn:Hd.
  - destruct (has_surrogate (LoginRequest.password req)) eqn:Hpw.
    + now rewrite (login_unencodable _ _ _ Hup Hd Hpw).
    + rewrite (login_known _ _ _ Hup Hd Hpw).
      destruct (bool_decide _); [apply validate_snd | reflexivity].
  - now rewrite (login_unknown _ _ Hup Hd).
Qed.

(** X9: on a reachable store [register] has three outcomes, decided by
    [find_one] and by the password alone; the name plays no part.  It is
    refused with status 400 exactly when a user document with the address is
    stored; it returns a response exactly when none is stored and the
    password can be encoded; it raises the encoding error of
    [hash_password(req.password)] exactly when none is stored and the
    password holds a lone surrogate. *)
Theorem register_outcomes (db : Database) (req : RegisterRequest.t) :
  outage db = None ->
  (fst (register req (Some db)) = Raised (HTTPException 400 "Email already registered")
   <-> is_Some (stored_user db (RegisterRequest.email req))) /\
  ((exists resp, fst (register req (Some db)) = Returned resp)
   <-> stored_user db (RegisterRequest.email req) = None /\
       has_surrogate (RegisterRequest.password req) = false) /\
  ((exists message,
      fst (register req (Some db)) = Raised (PyException "UnicodeEncodeError" message))
   <-> stored_user db (RegisterRequest.email req) = None /\
       has_surrogate (RegisterRequest.password req) = true).
Proof.
  intros Hup.
  destruct (stored_user db (RegisterRequest.email req)) as [d|] eqn:Hd.
  - rewrite register_taken by (rewrite ?Hd; eauto). cbn [fst].
    split; [split; eauto|].
    split; (split; [intros [x Hx]; discriminate | intros [Hx _]; discriminate]).
  - destruct (has_surrogate (RegisterRequest.password req)) eqn:Hpw.
    + rewrite (register_unencodable _ _ Hup Hd Hpw). cbn [fst].
      split; [split; [discriminate | intros [x Hx]; discriminate]|].
      split.
      * split; [intros [x Hx]; discriminate | intros [_ Hx]; discriminate].
      * split; [intros _; split; reflexivity | intros _; eexists; reflexivity].
    + rewrite (register_fresh _ _ Hup Hd Hpw). cbn [fst].
      split; [split; [discriminate | intros [x Hx]; discriminate]|].
      split.
      * split; [intros _; split; reflexivity | intros _; eexists; reflexivity].
      * split; [intros [x Hx]; discriminate | intros [_ Hx]; discriminate].
Qed.

Lemma register_outcomes_witness :
  outage squatted_db = None /\
  fst (register squatter (Some squatted_db))
  = Raised (HTTPException 400 "Email already registered") /\
  (exists resp, fst (register alice (Some squatted_db)) = Returned resp) /\
  (exists message,
     fst (register alice_surrogate (Some squatted_db))
     = Raised (PyException "UnicodeEncodeError" message)).
Proof.
  destruct (register_outcomes squatted_db squatter eq_refl) as (Hc & _ & _).
  destruct (register_outcomes squatted_db alice eq_refl) as (_ & Hr & _).
  destruct (register_outcomes squatted_db alice_surrogate eq_refl) as (_ & _ & He).
  split; [reflexivity|]. split; [|split].
  - apply Hc. eexists. reflexivity.
  - apply Hr. split; reflexivity.
  - apply He. split; reflexivity.
Defined.

(** X10: a failed [register] persists nothing: whenever it raises, for
    whatever reason, the store is the one it started from. *)
Theorem register_failure_keeps_store (req : RegisterRequest.t) (w : world) (e : exn) :
  fst (register req w) = Raised e -> snd (register req w) = w.
Proof.
  intros H. destruct w as [db|]; [|reflexivity].
  destruct (outage db) as [msg|] eqn:Hup.
  { now rewrite (register_down _ _ _ Hup). }
  destruct (stored_user db (RegisterRequest.email req)) as [d|] eqn:Hd.
  { now rewrite register_taken by (rewrite ?Hd; eauto). }
  destruct (has_surrogate (RegisterRequest.password req)) eqn:Hpw.
  - now rewrite (register_unencodable _ _ Hup Hd Hpw).
  - rewrite (register_fresh _ _ Hup Hd Hpw) in H. discriminate.
Qed.

Lemma register_failure_keeps_store_witness :
  fst (register alice_again (Some alice_db))
  = Raised (HTTPException 400 "Email already registered") /\
  snd (register alice_again (Some alice_db)) = Some alice_db.
Proof.
  assert (H : fst (register alice_again (Some alice_db))
              = Raised (HTTPException 400 "Email already registered"))
    by (rewrite (register_taken alice_db alice_again eq_refl); [reflexivity|];
        eexists; reflexivity).
  split; [exact H|].
  exact (register_failure_keeps_store alice_again (Some alice_db) _ H).
Defined.

(** ** Append-only stores and unique addresses *)

Lemma store_prefix (coll coll' : string) (d : document) (db : Database) :
  docs_of db coll' `prefix_of` docs_of (store coll d db) coll'.
Proof.
  destruct (decide (coll = coll')) as [->|Hne].
  - rewrite docs_of_store. now apply prefix_app_r.
  - now rewrite docs_of_store_other.
Qed.

Lemma ensure_user_prefix (u : document) (e coll : string) (db : Database) :
  docs_of db coll `prefix_of` docs_of (ensure_user u e db) coll.
Proof.
  unfold ensure_user. destruct (stored_user db e); [reflexivity | apply store_prefix].
Qed.

Lemma ensure_courses_prefix (coll : string) (db : Database) :
  docs_of db coll `prefix_of` docs_of (ensure_courses db) coll.
Proof.
  unfold ensure_courses. destruct (docs_of db "course"); [|reflexivity].
  unfold sample_courses. cbn [fold_left].
  repeat (etrans; [|apply store_prefix]). reflexivity.
Qed.

Lemma seeded_db_prefix (coll : string) (db : Database) :
  docs_of db coll `prefix_of` docs_of (seeded_db db) coll.
Proof.
  unfold seeded_db.
  etrans; [|apply ensure_courses_prefix].
  etrans; [|apply ensure_user_prefix]. apply ensure_user_prefix.
Qed.

(** X11: a successful [register] only appends: in every collection the
    documents stored before are still there, unchanged and in the same
    places; collections other than "user" are as they were; the user
    collection gained exactly one document. *)
Theorem register_append_only
        (db db' : Database) (req : RegisterRequest.t) (resp : AuthResponse.t) :
  register req (Some db) = (Returned resp, Some db') ->
  (forall coll, docs_of db coll `prefix_of` docs_of db' coll) /\
  (forall coll, coll <> "user" -> docs_of db' coll = docs_of db coll) /\
  (exists persisted, docs_of db' "user" = docs_of db "user" ++ [persisted]).
Proof.
  intros H.
  destruct (register_returned_inv _ _ _ _ H) as (db0 & Hdb & Hup & Hnone & _ & Hdb').
  inversion Hdb; subst db0. inversion Hdb'; subst db'. clear Hdb Hdb'.
  split; [intros coll; apply store_prefix|].
  split; [intros coll Hne; now rewrite docs_of_store_other by congruence|].
  eexists. apply docs_of_store.
Qed.

Lemma register_append_only_witness :
  register alice (Some algebra_db)
  = (Returned alice_response, Some (store "user" (model_dump (new_user alice)) algebra_db)) /\
  docs_of (store "user" (model_dump (new_user alice)) algebra_db) "course"
  = docs_of algebra_db "course" /\
  length (docs_of (store "user" (model_dump (new_user alice)) algebra_db) "user") = 1%nat.
Proof.
  assert (H : register alice (Some algebra_db)
              = (Returned alice_response,
                 Some (store "user" (model_dump (new_user alice)) algebra_db)))
    by (vm_compute; reflexivity).
  destruct (register_append_only _ _ _ _ H) as (_ & Hother & _).
  split; [exact H|]. split; [apply Hother; discriminate | reflexivity].
Defined.

(** X12: a start only appends, on every world: whatever the store held
    before is still there afterwards, unchanged and in the same places. *)
Theorem startup_append_only (db db' : Database) :
  snd (startup_event (Some db)) = Some db' ->
  forall coll, docs_of db coll `prefix_of` docs_of db' coll.
Proof.
  intros H coll. destruct (outage db) as [msg|] eqn:Hup.
  - rewrite (startup_event_down _ _ Hup) in H. inversion H; subst db'. reflexivity.
  - rewrite (startup_event_up _ Hup) in H. inversion H; subst db'.
    apply seeded_db_prefix.
Qed.

Lemma startup_append_only_witness :
  snd (startup_event (Some squatted_db)) = Some (seeded_db squatted_db) /\
  docs_of squatted_db "user" `prefix_of` docs_of (seeded_db squatted_db) "user".
Proof.
  assert (H : snd (startup_event (Some squatted_db)) = Some (seeded_db squatted_db))
    by reflexivity.
  split; [exact H|].
  exact (startup_append_only squatted_db (seeded_db squatted_db) H "user").
Defined.

Lemma stored_user_None_emails (db : Database) (e : string) :
  stored_user db e = None -> VStr e ∉ user_emails db.
Proof.
  intros Hnone Hin. unfold user_emails in Hin.
  apply list_elem_of_fmap in Hin. destruct Hin as (d & Hd & Hin).
  apply list_elem_of_In in Hin.
  apply (proj1 (stored_user_None db e) Hnone d Hin).
  unfold dict_get in Hd. destruct (d !! "email") as [v|]; cbn in Hd; congruence.
Qed.

Lemma user_emails_store (d : document) (db : Database) :
  user_emails (store "user" d db)
  = user_emails db ++ [dict_get (with_id d (next_oid db)) "email"].
Proof. unfold user_emails. now rewrite docs_of_store, map_app. Qed.

Lemma NoDup_snoc_fresh (l : list value) (v : value) :
  NoDup l -> v ∉ l -> NoDup (l ++ [v]).
Proof.
  intros Hl Hv. apply NoDup_app. split; [exact Hl|]. split.
  - intros x Hx Hx'. apply list_elem_of_singleton in Hx'. now subst.
  - apply NoDup_singleton.
Qed.

Lemma ensure_user_keeps_emails_unique (u : document) (e : string) (db : Database) :
  u !! "email" = Some (VStr e) ->
  NoDup (user_emails db) -> NoDup (user_emails (ensure_user u e db)).
Proof.
  intros Hu Hnd. unfold ensure_user.
  destruct (stored_user db e) as [d|] eqn:Hd; [exact Hnd|].
  rewrite user_emails_store. apply NoDup_snoc_fresh; [exact Hnd|].
  unfold dict_get. rewrite with_id_lookup by discriminate. rewrite Hu. cbn [default].
  now apply stored_user_None_emails.
Qed.

Lemma user_emails_ensure_courses (db : Database) :
  user_emails (ensure_courses db) = user_emails db.
Proof.
  unfold user_emails, ensure_courses. destruct (docs_of db "course"); [|reflexivity].
  unfold sample_courses. cbn [fold_left].
  now rewrite !docs_of_store_other by discriminate.
Qed.

(** X13: [register] keeps addresses unique: if no two user documents hold
    the same value under "email" before a successful call, none do after
    it. *)
Theorem register_keeps_emails_unique
        (db db' : Database) (req : RegisterRequest.t) (resp : AuthResponse.t) :
  register req (Some db) = (Returned resp, Some db') ->
  NoDup (user_emails db) ->
  NoDup (user_emails db') /\
  user_emails db' = user_emails db ++ [VStr (RegisterRequest.email req)].
Proof.
  intros H Hnd.
  destruct (register_returned_inv _ _ _ _ H) as (db0 & Hdb & Hup & Hnone & _ & Hdb').
  inversion Hdb; subst db0. inversion Hdb'; subst db'. clear Hdb Hdb'.
  assert (He : user_emails (store "user" (model_dump (new_user req)) db)
               = user_emails db ++ [VStr (RegisterRequest.email req)]).
  { rewrite user_emails_store. unfold dict_get.
    rewrite with_id_lookup by discriminate.
    pose proof (model_dump_fields (new_user req)) as (_ & _ & He & _).
    now rewrite He. }
  split; [|exact He]. rewrite He.
  apply NoDup_snoc_fresh; [exact Hnd | now apply stored_user_None_emails].
Qed.

Lemma register_keeps_emails_unique_witness :
  register alice (Some squatted_db)
  = (Returned alice_response, Some (store "user" (model_dump (new_user alice)) squatted_db)) /\
  NoDup (user_emails squatted_db) /\
  NoDup (user_emails (store "user" (model_dump (new_user alice)) squatted_db)).
Proof.
  assert (H : register alice (Some squatted_db)
              = (Returned alice_response,
                 Some (store "user" (model_dump (new_user alice)) squatted_db)))
    by (vm_compute; reflexivity).
  assert (Hnd : NoDup (user_emails squatted_db))
    by (apply (bool_decide_unpack _); vm_compute; exact I).
  split; [exact H|]. split; [exact Hnd|].
  exact (proj1 (register_keeps_emails_unique _ _ _ _ H Hnd)).
Defined.

(** X14: a start keeps addresses unique too: a baseline account is stored
    only when its address is not, so no duplicate can appear. *)
Theorem startup_keeps_emails_unique (db db' : Database) :
  snd (startup_event (Some db)) = Some db' ->
  NoDup (user_emails db) ->
  NoDup (user_emails db').
Proof.
  intros H Hnd. destruct (outage db) as [msg|] eqn:Hup.
  - rewrite (startup_event_down _ _ Hup) in H. now inversion H; subst db'.
  - rewrite (startup_event_up _ Hup) in H. inversion H; subst db'.
    unfold seeded_db. rewrite user_emails_ensure_courses.
    apply ensure_user_keeps_emails_unique; [reflexivity|].
    apply ensure_user_keeps_emails_unique; [reflexivity | exact Hnd].
Qed.

Lemma startup_keeps_emails_unique_witness :
  snd (startup_event (Some squatted_db)) = Some (seeded_db squatted_db) /\
  NoDup (user_emails squatted_db) /\
  NoDup (user_emails (seeded_db squatted_db)) /\
  user_emails (seeded_db squatted_db)
  = [VStr "admin@elearning.com"; VStr "faculty@elearning.com"].
Proof.
  assert (H : snd (startup_event (Some squatted_db)) = Some (seeded_db squatted_db))
    by reflexivity.
  assert (Hnd : NoDup (user_emails squatted_db))
    by (apply (bool_decide_unpack _); vm_compute; exact I).
  split; [exact H|]. split; [exact Hnd|].
  split; [exact (startup_keeps_emails_unique _ _ H Hnd) | reflexivity].
Defined.

(** ** Edge cases of [login] on stored documents *)

(** X15: a user document whose "password_hash" is missing or is not a
    string can never log in: [found.get("password_hash")] differs from every
    fingerprint, so [login] returns no response whatever the password, and
    refuses with status 401 every password that can be encoded. *)
Theorem login_without_fingerprint_refused
        (db : Database) (req : LoginRequest.t) (found : document) :
  outage db = None ->
  stored_user db (LoginRequest.email req) = Some found ->
  (forall s, found !! "password_hash" <> Some (VStr s)) ->
  (has_surrogate (LoginRequest.password req) = false ->
   login req (Some db) = (Raised (HTTPException 401 "Invalid credentials"), Some db)) /\
  (forall resp, fst (login req (Some db)) <> Returned resp).
Proof.
  intros Hup Hfound Hnostr.
  assert (Hne : forall h, dict_get found "password_hash" <> VStr h).
  { intros h Heq. unfold dict_get in Heq.
    destruct (found !! "password_hash") as [v|] eqn:Hv; simpl in Heq.
    - subst v. exact (Hnostr _ eq_refl).
    - discriminate. }
  destruct (has_surrogate (LoginRequest.password req)) eqn:Hpw.
  - rewrite (login_unencodable _ _ _ Hup Hfound Hpw).
    split; [discriminate | intros resp H; discriminate H].
  - rewrite (login_known _ _ _ Hup Hfound Hpw).
    rewrite bool_decide_eq_false_2 by apply Hne.
    split; [reflexivity | intros resp H; discriminate H].
Qed.

Lemma login_without_fingerprint_refused_witness :
  stored_user (legacy_db no_hash_doc) "old@x.com" = Some (with_id no_hash_doc 0%N) /\
  login {| LoginRequest.email := old_address; LoginRequest.password := "" |}
        (Some (legacy_db no_hash_doc))
  = (Raised (HTTPException 401 "Invalid credentials"), Some (legacy_db no_hash_doc)).
Proof.
  assert (Hfound : stored_user (legacy_db no_hash_doc) "old@x.com"
                   = Some (with_id no_hash_doc 0%N)) by reflexivity.
  split; [exact Hfound|].
  apply (login_without_fingerprint_refused
           (legacy_db no_hash_doc)
           {| LoginRequest.email := old_address; LoginRequest.password := "" |}
           _ eq_refl Hfound); [|reflexivity].
  intros s H. discriminate H.
Defined.

(** X16: a stored user document without a "role" logs in as a student:
    [found.get("role", "student")] supplies the default. *)
Theorem login_role_defaults_to_student
        (db : Database) (req : LoginRequest.t) (found : document) (name given_hash : string) :
  outage db = None ->
  stored_user db (LoginRequest.email req) = Some found ->
  hash_password (LoginRequest.password req) = Returned given_hash ->
  found !! "password_hash" = Some (VStr given_hash) ->
  found !! "name" = Some (VStr name) ->
  found !! "role" = None ->
  exists token,
    hash_password (LoginRequest.email req +:+ "|" +:+ LoginRequest.password req)
    = Returned token /\
    login req (Some db)
    = (Returned {| AuthResponse.name := name;
                   AuthResponse.email := LoginRequest.email req;
                   AuthResponse.role := "student";
                   AuthResponse.token := token |},
       Some db).
Proof.
  intros Hup Hfound Hgiven Hhash Hname Hrole.
  apply hash_password_returned in Hgiven. destruct Hgiven as [Hpw ->].
  exists (fingerprint (LoginRequest.email req +:+ "|" +:+ LoginRequest.password req)).
  split; [apply hash_password_encodable; now rewrite token_text_encodable|].
  rewrite (login_known _ _ _ Hup Hfound Hpw).
  destruct (stored_user_Some _ _ _ Hfound) as [_ Hemail].
  unfold dict_get, dict_get_or. rewrite Hhash, Hname, Hrole, Hemail.
  cbn [default]. rewrite bool_decide_eq_true_2 by reflexivity.
  reflexivity.
Qed.

Lemma login_role_defaults_to_student_witness :
  stored_user (legacy_db no_role_doc) "rolf@x.com" = Some (with_id no_role_doc 0%N) /\
  with_id no_role_doc 0%N !! "role" = None /\
  exists token,
    hash_password ("rolf@x.com" +:+ "|" +:+ "pw5") = Returned token /\
    login {| LoginRequest.email := rolf_address; LoginRequest.password := "pw5" |}
          (Some (legacy_db no_role_doc))
    = (Returned {| AuthResponse.name := "Rolf";
                   AuthResponse.email := "rolf@x.com";
                   AuthResponse.role := "student";
                   AuthResponse.token := token |},
       Some (legacy_db no_role_doc)).
Proof.
  assert (Hfound : stored_user (legacy_db no_role_doc) "rolf@x.com"
                   = Some (with_id no_role_doc 0%N)) by reflexivity.
  split; [exact Hfound|]. split; [reflexivity|].
  exact (login_role_defaults_to_student
           (legacy_db no_role_doc)
           {| LoginRequest.email := rolf_address; LoginRequest.password := "pw5" |}
           _ "Rolf" (fingerprint "pw5") eq_refl Hfound eq_refl eq_refl eq_refl eq_refl).
Defined.

(** X17: a stored user document with the right fingerprint but no "name"
    passes both credential checks and then fails when the response model is
    built from [found.get("name")], which is [None]: the call raises a
    validation error, neither a response nor the 401 refusal. *)
Theorem login_without_name_fails_validation
        (db : Database) (req : LoginRequest.t) (found : document) (given_hash : string) :
  outage db = None ->
  stored_user db (LoginRequest.email req) = Some found ->
  hash_password (LoginRequest.password req) = Returned given_hash ->
  found !! "password_hash" = Some (VStr given_hash) ->
  found !! "name" = None ->
  (exists message,
     login req (Some db) = (Raised (PyException "ValidationError" message), Some db)) /\
  fst (login req (Some db)) <> Raised (HTTPException 401 "Invalid credentials").
Proof.
  intros Hup Hfound Hgiven Hhash Hname.
  apply hash_password_returned in Hgiven. destruct Hgiven as [Hpw ->].
  rewrite (login_known _ _ _ Hup Hfound Hpw).
  unfold dict_get. rewrite Hhash, Hname. simpl default.
  rewrite bool_decide_eq_true_2 by reflexivity.
  unfold AuthResponse.validate. split; [eexists; reflexivity | discriminate].
Qed.

Lemma login_without_name_fails_validation_witness :
  stored_user (legacy_db no_name_doc) "nn@x.com" = Some (with_id no_name_doc 0%N) /\
  fst (login {| LoginRequest.email := nn_address; LoginRequest.password := "pw6" |}
             (Some (legacy_db no_name_doc)))
  <> Raised (HTTPException 401 "Invalid credentials").
Proof.
  assert (Hfound : stored_user (legacy_db no_name_doc) "nn@x.com"
                   = Some (with_id no_name_doc 0%N)) by reflexivity.
  split; [exact Hfound|].
  exact (proj2 (login_without_name_fails_validation
                  (legacy_db no_name_doc)
                  {| LoginRequest.email := nn_address; LoginRequest.password := "pw6" |}
                  _ (fingerprint "pw6") eq_refl Hfound eq_refl eq_refl eq_refl)).
Defined.

(** ** Edge cases of the listing *)

(** X18: the conversion is guarded by ["_id" in it]: a document that
    carries no [_id] is returned as it is, at its place in the list, and
    gets no "id". *)
Theorem list_courses_keeps_documents_without_id
        (db : Database) (i : nat) (d : document) :
  outage db = None ->
  docs_of db "course" !! i = Some d ->
  d !! "_id" = None ->
  exists items,
    list_courses (Some db)
    = (Returned {| CoursesResponse.items := items; CoursesResponse.error := None |},
       Some db) /\
    length items = length (docs_of db "course") /\
    items !! i = Some d.
Proof.
  intros Hup Hi Hid. eexists. split; [apply (list_courses_up _ Hup)|].
  split; [apply length_map|].
  rewrite list_lookup_fmap, Hi. cbn. unfold expose_id. now rewrite Hid.
Qed.

Lemma list_courses_keeps_documents_without_id_witness :
  docs_of raw_courses_db "course" !! 0%nat = Some logic_course /\
  logic_course !! "_id" = None /\
  exists items,
    list_courses (Some raw_courses_db)
    = (Returned {| CoursesResponse.items := items; CoursesResponse.error := None |},
       Some raw_courses_db) /\
    length items = length (docs_of raw_courses_db "course") /\
    items !! 0%nat = Some logic_course.
Proof.
  split; [reflexivity|]. split; [reflexivity|].
  exact (list_courses_keeps_documents_without_id raw_courses_db 0 logic_course
           eq_refl eq_refl eq_refl).
Defined.

(** X19: the "error" key tells failure from an empty collection.  On every
    world [list_courses] returns a response and leaves the store alone; the
    response has no "error" exactly when there is a handle and the server
    answers, and then it has one item per stored course; with an "error" the
    items are empty. *)
Theorem list_courses_error_iff_failure (w : world) :
  exists resp,
    list_courses w = (Returned resp, w) /\
    (CoursesResponse.error resp = None <-> exists db, w = Some db /\ outage db = None) /\
    (forall db, w = Some db -> outage db = None ->
                length (CoursesResponse.items resp) = length (docs_of db "course")) /\
    (CoursesResponse.error resp <> None -> CoursesResponse.items resp = []).
Proof.
  destruct w as [db|].
  - destruct (outage db) as [msg|] eqn:Hup.
    + eexists. split.
      { apply list_courses_raised. unfold get_documents, find.
        apply (driver_call_down _ _ _ Hup). }
      cbn [CoursesResponse.error CoursesResponse.items].
      split; [split; [discriminate|]|].
      { intros (db' & Hdb & Hup'). inversion Hdb; subst. congruence. }
      split; [|reflexivity]. intros db' Hdb Hup'. inversion Hdb; subst. congruence.
    + eexists. split; [apply (list_courses_up _ Hup)|].
      cbn [CoursesResponse.error CoursesResponse.items].
      split; [split; eauto|].
      split; [|congruence]. intros db' Hdb _. inversion Hdb; subst. apply length_map.
  - eexists. split; [apply list_courses_raised; reflexivity|].
    cbn [CoursesResponse.error CoursesResponse.items].
    split; [split; [discriminate|]|].
    { intros (db' & Hdb & _). discriminate. }
    split; [|reflexivity]. intros db' Hdb. discriminate.
Qed.

(** ** User documents that [login] can answer from *)

Lemma ensure_user_keeps_response_ready (u : document) (e : string) (db : Database) :
  (forall oid, response_ready (with_id u oid) = true) ->
  forallb response_ready (docs_of db "user") = true ->
  forallb response_ready (docs_of (ensure_user u e db) "user") = true.
Proof.
  intros Hu Hvalid. unfold ensure_user. destruct (stored_user db e); [exact Hvalid|].
  rewrite docs_of_store, forallb_app, Hvalid. cbn [forallb]. now rewrite Hu.
Qed.

Lemma baseline_accounts_response_ready (oid : N) :
  response_ready (with_id admin_account oid) = true /\
  response_ready (with_id faculty_account oid) = true.
Proof.
  unfold response_ready, dict_get, dict_get_or.
  rewrite !with_id_lookup by discriminate. split; reflexivity.
Qed.

(** X20: a start stores baseline accounts from which [login] can build its
    response: if every user document holds a string under "name" and a
    string or nothing under "role" before the start, every one does after
    it. *)
Theorem startup_keeps_users_response_ready (db db' : Database) :
  snd (startup_event (Some db)) = Some db' ->
  forallb response_ready (docs_of db "user") = true ->
  forallb response_ready (docs_of db' "user") = true.
Proof.
  intros H Hvalid. destruct (outage db) as [msg|] eqn:Hup.
  - rewrite (startup_event_down _ _ Hup) in H. now inversion H; subst db'.
  - rewrite (startup_event_up _ Hup) in H. inversion H; subst db'.
    unfold seeded_db, ensure_courses.
    assert (Hu : forallb response_ready
                   (docs_of (ensure_user faculty_account "faculty@elearning.com"
                               (ensure_user admin_account "admin@elearning.com" db))
                            "user") = true).
    { apply ensure_user_keeps_response_ready; [apply baseline_accounts_response_ready|].
      apply ensure_user_keeps_response_ready;
        [apply baseline_accounts_response_ready | exact Hvalid]. }
    destruct (docs_of _ "course"); [|exact Hu].
    unfold sample_courses. cbn [fold_left].
    now rewrite !docs_of_store_other by discriminate.
Qed.

Lemma startup_keeps_users_response_ready_witness :
  snd (startup_event (Some alice_db)) = Some (seeded_db alice_db) /\
  forallb response_ready (docs_of alice_db "user") = true /\
  forallb response_ready (docs_of (seeded_db alice_db) "user") = true /\
  length (docs_of (seeded_db alice_db) "user") = 3%nat.
Proof.
  assert (H : snd (startup_event (Some alice_db)) = Some (seeded_db alice_db))
    by reflexivity.
  assert (Hvalid : forallb response_ready (docs_of alice_db "user") = true)
    by reflexivity.
  split; [exact H|]. split; [exact Hvalid|].
  split; [exact (startup_keeps_users_response_ready _ _ H Hvalid) | reflexivity].
Defined.

(** ** The diagnostic endpoint *)

Lemma str_len_take (n : nat) (s : string) : (str_len (str_take n s) <= n)%nat.
Proof.
  revert n. induction s as [|c r IH]; intros n; cbn [str_take str_len]; [lia|].
  destruct (is_continuation c) eqn:Hc.
  - cbn [str_len]. rewrite Hc. apply IH.
  - destruct n as [|k]; cbn [str_len]; [lia|]. rewrite Hc. specialize (IH k). lia.
Qed.

Lemma str_take_all (n : nat) (s : string) :
  (str_len s <= n)%nat -> str_take n s = s.
Proof.
  revert n. induction s as [|c r IH]; intros n; cbn [str_take str_len]; [reflexivity|].
  destruct (is_continuation c).
  - intros H. now rewrite IH.
  - destruct n as [|k]; [lia|]. intros H. rewrite IH by lia. reflexivity.
Qed.

Lemma str_take_prefix (n : nat) (s : string) :
  exists rest, s = str_take n s +:+ rest.
Proof.
  revert n. induction s as [|c r IH]; intros n; cbn [str_take]; [now exists EmptyString|].
  destruct (is_continuation c).
  - destruct (IH n) as [rest Hrest]. exists rest.
    change (String c r = String c (str_take n r +:+ rest)). now rewrite <- Hrest.
  - destruct n as [|k]; [now exists (String c r)|].
    destruct (IH k) as [rest Hrest]. exists rest.
    change (String c r = String c (str_take k r +:+ rest)). now rewrite <- Hrest.
Qed.

Lemma str_truthy_spec (o : option string) :
  str_truthy o = true <-> exists s, o = Some s /\ s <> EmptyString.
Proof.
  destruct o as [s|]; cbn [str_truthy].
  - rewrite negb_true_iff, eqb_neq. split; [eauto|]. intros (s' & Hs & Hne). congruence.
  - split; [discriminate|]. intros (s & Hs & _). discriminate.
Qed.

Lemma list_collection_names_up (db : Database) :
  outage db = None ->
  list_collection_names (Some db)
  = (Returned (map fst (map_to_list (collections db))), Some db).
Proof. intros Hup. unfold list_collection_names. now rewrite driver_call_up. Qed.

Lemma list_collection_names_down (db : Database) (msg : string) :
  outage db = Some msg ->
  list_collection_names (Some db)
  = (Raised (PyException "ServerSelectionTimeoutError" msg), Some db).
Proof. intros Hdown. unfold list_collection_names. now apply driver_call_down. Qed.

Lemma test_database_no_handle (db_name : Database -> option string)
      (environ : gmap string string) :
  test_database db_name environ None
  = (Returned
       {| TestResponse.backend := "✅ Running";
          TestResponse.database := "⚠️  Available but not initialized";
          TestResponse.database_url :=
            Some (if str_truthy (getenv environ "DATABASE_URL")
                  then "✅ Set" else "❌ Not Set");
          TestResponse.database_name :=
            Some (if str_truthy (getenv environ "DATABASE_NAME")
                  then "✅ Set" else "❌ Not Set");
          TestResponse.connection_status := "Not Connected";
          TestResponse.collections := [] |},
     None).
Proof. reflexivity. Qed.

Lemma test_database_up (db_name : Database -> option string)
      (environ : gmap string string) (db : Database) :
  outage db = None ->
  test_database db_name environ (Some db)
  = (Returned
       {| TestResponse.backend := "✅ Running";
          TestResponse.database := "✅ Connected & Working";
          TestResponse.database_url :=
            Some (if str_truthy (getenv environ "DATABASE_URL")
                  then "✅ Set" else "❌ Not Set");
          TestResponse.database_name :=
            Some (if str_truthy (getenv environ "DATABASE_NAME")
                  then "✅ Set" else "❌ Not Set");
          TestResponse.connection_status := "Connected";
          TestResponse.collections := take 10 (map fst (map_to_list (collections db))) |},
     Some db).
Proof.
  intros Hup. unfold test_database. now rewrite (list_collection_names_up _ Hup).
Qed.

Lemma test_database_down (db_name : Database -> option string)
      (environ : gmap string string) (db : Database) (msg : string) :
  outage db = Some msg ->
  test_database db_name environ (Some db)
  = (Returned
       {| TestResponse.backend := "✅ Running";
          TestResponse.database := "⚠️  Connected but Error: " +:+ str_take 50 msg;
          TestResponse.database_url :=
            Some (if str_truthy (getenv environ "DATABASE_URL")
                  then "✅ Set" else "❌ Not Set");
          TestResponse.database_name :=
            Some (if str_truthy (getenv environ "DATABASE_NAME")
                  then "✅ Set" else "❌ Not Set");
          TestResponse.connection_status := "Connected";
          TestResponse.collections := [] |},
     Some db).
Proof.
  intros Hdown. unfold test_database. now rewrite (list_collection_names_down _ _ Hdown).
Qed.

(** X21: [test_database] never raises and changes nothing: on every world,
    with every environment, it returns a response and the same store.  The
    backend reads "Running", at most ten collection names are reported, and
    the initial "Not Available" under "database" is never what is returned:
    every path assigns the key again. *)
Theorem test_database_never_raises
        (db_name : Database -> option string) (environ : gmap string string) (w : world) :
  exists resp,
    test_database db_name environ w = (Returned resp, w) /\
    TestResponse.backend resp = "✅ Running" /\
    TestResponse.database resp <> "❌ Not Available" /\
    (length (TestResponse.collections resp) <= 10)%nat.
Proof.
  destruct w as [db|].
  - destruct (outage db) as [msg|] eqn:Hup.
    + eexists. split; [apply (test_database_down _ _ _ _ Hup)|].
      cbn [TestResponse.backend TestResponse.database TestResponse.collections].
      split; [reflexivity|]. split; [|cbn; lia].
      cbn. intros H. discriminate H.
    + eexists. split; [apply (test_database_up _ _ _ Hup)|].
      cbn [TestResponse.backend TestResponse.database TestResponse.collections].
      split; [reflexivity|]. split; [intros H; discriminate H|].
      rewrite length_take. lia.
  - eexists. split; [apply test_database_no_handle|].
    cbn [TestResponse.backend TestResponse.database TestResponse.collections].
    split; [reflexivity|]. split; [intros H; discriminate H | cbn; lia].
Qed.

(** X22: "database_url" and "database_name" report the environment and
    nothing else.  Whatever the handle, its name and the state of the server,
    each is "Set" exactly when its variable is set to a non-empty text and
    "Not Set" otherwise: what the connected branch assigns to the two keys is
    overwritten before the response is returned. *)
Theorem test_database_reports_environment_only
        (db_name : Database -> option string) (environ : gmap string string) (w : world) :
  exists resp,
    test_database db_name environ w = (Returned resp, w) /\
    TestResponse.database_url resp
    = Some (if str_truthy (environ !! "DATABASE_URL") then "✅ Set" else "❌ Not Set") /\
    TestResponse.database_name resp
    = Some (if str_truthy (environ !! "DATABASE_NAME") then "✅ Set" else "❌ Not Set") /\
    (TestResponse.database_url resp = Some "✅ Set"
     <-> exists s, environ !! "DATABASE_URL" = Some s /\ s <> EmptyString) /\
    (TestResponse.database_name resp = Some "✅ Set"
     <-> exists s, environ !! "DATABASE_NAME" = Some s /\ s <> EmptyString).
Proof.
  assert (Hflag : forall k,
            Some (if str_truthy (environ !! k) then "✅ Set" else "❌ Not Set")
            = Some "✅ Set"
            <-> exists s, environ !! k = Some s /\ s <> EmptyString).
  { intros k. rewrite <- str_truthy_spec.
    destruct (str_truthy (environ !! k)); split; try reflexivity; discriminate. }
  destruct w as [db|]; [destruct (outage db) as [msg|] eqn:Hup|].
  - eexists. split; [apply (test_database_down _ _ _ _ Hup)|].
    cbn [TestResponse.database_url TestResponse.database_name]. unfold getenv.
    repeat split; try apply Hflag.
  - eexists. split; [apply (test_database_up _ _ _ Hup)|].
    cbn [TestResponse.database_url TestResponse.database_name]. unfold getenv.
    repeat split; try apply Hflag.
  - eexists. split; [apply test_database_no_handle|].
    cbn [TestResponse.database_url TestResponse.database_name]. unfold getenv.
    repeat split; try apply Hflag.
Qed.

(** X23: with a handle and a server that answers, the status is "Connected
    & Working" and "collections" holds the first ten names that the driver
    lists: every reported name is a collection of the store, and when the
    store has at most ten collections every one of them is reported. *)
Theorem test_database_lists_collections
        (db_name : Database -> option string) (environ : gmap string string)
        (db : Database) :
  outage db = None ->
  exists resp,
    test_database db_name environ (Some db) = (Returned resp, Some db) /\
    TestResponse.database resp = "✅ Connected & Working" /\
    TestResponse.connection_status resp = "Connected" /\
    length (TestResponse.collections resp) = Nat.min 10 (size (collections db)) /\
    (forall name, name ∈ TestResponse.collections resp -> is_Some (collections db !! name)) /\
    ((size (collections db) <= 10)%nat ->
     forall name, is_Some (collections db !! name) -> name ∈ TestResponse.collections resp).
Proof.
  intros Hup. eexists. split; [apply (test_database_up _ _ _ Hup)|].
  cbn [TestResponse.database TestResponse.connection_status TestResponse.collections].
  split; [reflexivity|]. split; [reflexivity|].
  split; [now rewrite length_take, length_map, length_map_to_list|].
  split.
  - intros name Hin. apply elem_of_take in Hin. destruct Hin as (i & Hi & _).
    apply list_elem_of_lookup_2 in Hi. apply list_elem_of_fmap in Hi.
    destruct Hi as ([k docs] & -> & Hk). apply elem_of_map_to_list in Hk.
    cbn [fst]. eauto.
  - intros Hsize name [docs Hdocs].
    rewrite take_ge by now rewrite length_map, length_map_to_list.
    apply list_elem_of_fmap. exists (name, docs). split; [reflexivity|].
    now apply elem_of_map_to_list.
Qed.

Lemma test_database_lists_collections_witness :
  outage (seeded_db empty_db) = None /\
  exists resp,
    test_database handle_name configured_environ (Some (seeded_db empty_db))
    = (Returned resp, Some (seeded_db empty_db)) /\
    TestResponse.database resp = "✅ Connected & Working" /\
    TestResponse.connection_status resp = "Connected" /\
    length (TestResponse.collections resp) = 2%nat.
Proof.
  split; [reflexivity|].
  destruct (test_database_lists_collections handle_name configured_environ
              (seeded_db empty_db) eq_refl) as (resp & H & Hd & Hc & Hl & _).
  exists resp. split; [exact H|]. split; [exact Hd|]. split; [exact Hc|].
  rewrite Hl. reflexivity.
Defined.

(** X24: with a handle whose server does not answer, the failure of
    [list_collection_names] is reported, not raised: "database" is the
    warning followed by the first 50 characters of the error text (the whole
    text when it has at most 50), no collection is listed, and
    "connection_status" still reads "Connected", as it was assigned before
    the server was asked. *)
Theorem test_database_reports_outage
        (db_name : Database -> option string) (environ : gmap string string)
        (db : Database) (msg : string) :
  outage db = Some msg ->
  exists resp,
    test_database db_name environ (Some db) = (Returned resp, Some db) /\
    TestResponse.database resp = "⚠️  Connected but Error: " +:+ str_take 50 msg /\
    (str_len (str_take 50 msg) <= 50)%nat /\
    (exists rest, msg = str_take 50 msg +:+ rest) /\
    ((str_len msg <= 50)%nat ->
     TestResponse.database resp = "⚠️  Connected but Error: " +:+ msg) /\
    TestResponse.connection_status resp = "Connected" /\
    TestResponse.collections resp = [].
Proof.
  intros Hdown. eexists. split; [apply (test_database_down _ _ _ _ Hdown)|].
  cbn [TestResponse.database TestResponse.connection_status TestResponse.collections].
  split; [reflexivity|]. split; [apply str_len_take|].
  split; [apply str_take_prefix|].
  split; [intros Hlen; now rewrite str_take_all|].
  split; reflexivity.
Qed.

Lemma test_database_reports_outage_witness :
  outage unreachable_db = Some "No servers found yet" /\
  exists resp,
    test_database handle_name blank_environ (Some unreachable_db)
    = (Returned resp, Some unreachable_db) /\
    TestResponse.database resp = "⚠️  Connected but Error: No servers found yet" /\
    TestResponse.connection_status resp = "Connected" /\
    TestResponse.database_url resp = Some "❌ Not Set".
Proof.
  split; [reflexivity|].
  destruct (test_database_reports_outage handle_name blank_environ unreachable_db
              "No servers found yet" eq_refl)
    as (resp & H & _ & _ & _ & Hd & Hc & _).
  exists resp. split; [exact H|]. split; [apply Hd; vm_compute; lia|].
  split; [exact Hc|].
  assert (Hr : fst (test_database handle_name blank_environ (Some unreachable_db))
               = Returned resp) by now rewrite H.
  vm_compute in Hr. inversion Hr. reflexivity.
Defined.

Lemma register_keeps_users_response_ready_witness :
  register alice (Some empty_db) = (Returned alice_response, Some alice_db) /\
  forallb response_ready (docs_of empty_db "user") = true /\
  forallb response_ready (docs_of alice_db "user") = true.
Proof.
  assert (H : register alice (Some empty_db) = (Returned alice_response, Some alice_db))
    by (vm_compute; reflexivity).
  split; [exact H|]. split; [reflexivity|].
  exact (register_keeps_users_response_ready empty_db alice_db alice alice_response
           H eq_refl).
Defined.
